(** * bookinfo-details: the details service of the bookinfo demo

    A shallow embedding of [main.go] and the properties of its two HTTP
    handlers and of the translation from the external book schema to the
    service's own [BookDetails] schema.

    Conventions of the embedding:
    - Go [string] is [string]; Go [int] is [Z]; a slice is a [list], and an
      index expression [s[i]] is [index s i], which panics out of range;
    - a Go map ([mux.Vars], [http.Header], the process environment) is a
      [gmap]; reading an absent key yields the zero value;
    - a [*BookDetails] is an [option]: [None] is the nil pointer;
    - a JSON string holds what [encoding/json] writes for a Go string:
      bytes that are not well-formed UTF-8 are replaced by U+FFFD;
    - the process environment, the upstream service, the outbound requests
      and the log form the [World], threaded through the monad [M];
    - a run-time panic is the [Panic] outcome of [result]. *)

From Stdlib Require Import ZArith String Ascii List.
From stdpp Require Import base option gmap strings list fin_maps.

Local Open Scope string_scope.
Local Open Scope list_scope.

(** ** Characters that cannot be written inside a string literal *)

Definition newline : string := String "010"%char EmptyString.
Definition dquote : ascii := "034"%char.

(** ** Data model *)

(** [type Status struct] *)
Module Status.
Record t : Type := mk { Status : string }.
End Status.

(** [type BookDetails struct] *)
Module BookDetails.
Record t : Type := mk {
  ID : string;
  Author : string;
  Year : string;
  Type_ : string;
  Pages : Z;
  Publisher : string;
  Language : string;
  ISBN10 : string;
  ISBN13 : string
}.
End BookDetails.

(** The element type of [IndustryIdentifiers]. *)
Module IndustryIdentifier.
Record t : Type := mk { Type_ : string; Identifier : string }.
End IndustryIdentifier.

Module ReadingModes.
Record t : Type := mk { Text : bool; Image : bool }.
End ReadingModes.

Module PanelizationSummary.
Record t : Type := mk {
  ContainsEpubBubbles : bool;
  ContainsImageBubbles : bool
}.
End PanelizationSummary.

Module ImageLinks.
Record t : Type := mk { SmallThumbnail : string; Thumbnail : string }.
End ImageLinks.

Module VolumeInfo.
Record t : Type := mk {
  Title : string;
  Authors : list string;
  Publisher : string;
  PublishedDate : string;
  Description : string;
  IndustryIdentifiers : list IndustryIdentifier.t;
  ReadingModes : ReadingModes.t;
  PageCount : Z;
  PrintType : string;
  Categories : list string;
  MaturityRating : string;
  AllowAnonLogging : bool;
  ContentVersion : string;
  PanelizationSummary : PanelizationSummary.t;
  ImageLinks : ImageLinks.t;
  Language : string;
  PreviewLink : string;
  InfoLink : string;
  CanonicalVolumeLink : string
}.
End VolumeInfo.

Module SaleInfo.
Record t : Type := mk {
  Country : string;
  Saleability : string;
  IsEbook : bool
}.
End SaleInfo.

Module AccessInfo.
Record t : Type := mk {
  Country : string;
  Viewability : string;
  Embeddable : bool;
  PublicDomain : bool;
  TextToSpeechPermission : string;
  EpubIsAvailable : bool;
  PdfIsAvailable : bool;
  WebReaderLink : string;
  AccessViewStatus : string;
  QuoteSharingAllowed : bool
}.
End AccessInfo.

Module SearchInfo.
Record t : Type := mk { TextSnippet : string }.
End SearchInfo.

(** The element type of [Items]. *)
Module Item.
Record t : Type := mk {
  Kind : string;
  ID : string;
  Etag : string;
  SelfLink : string;
  VolumeInfo : VolumeInfo.t;
  SaleInfo : SaleInfo.t;
  AccessInfo : AccessInfo.t;
  SearchInfo : SearchInfo.t
}.
End Item.

(** [type ExternalBookDetails struct]: the answer of the external API. *)
Module ExternalBookDetails.
Record t : Type := mk {
  Kind : string;
  TotalItems : Z;
  Items : list Item.t
}.

(** The value of [var externalBookDetails ExternalBookDetails]. *)
Definition zero : t := mk "" 0%Z [].
End ExternalBookDetails.

(** ** Panics and the pure error monad *)

Inductive runtime_error : Type :=
  | IndexOutOfRange (i len : nat).

Inductive result (A : Type) : Type :=
  | Ok (a : A)
  | Panic (e : runtime_error).
Arguments Ok {A} a.
Arguments Panic {A} e.

#[global] Instance result_ret : MRet result := fun A a => Ok a.
#[global] Instance result_bind : MBind result := fun A B f m =>
  match m with
  | Ok a => f a
  | Panic e => Panic e
  end.

(** The index expression [l[i]]. *)
Definition index {A : Type} (l : list A) (i : nat) : result A :=
  match l !! i with
  | Some a => Ok a
  | None => Panic (IndexOutOfRange i (length l))
  end.

(** ** The world around the service *)

(** What [ioutil.ReadAll(response.Body)] yields. *)
Inductive ReadOutcome : Type :=
  | ReadAll (body : string)
  | ReadErr (err : string).

(** What [http.Get] yields: a response whose body is still to be read, or
    an error. *)
Inductive GetOutcome : Type :=
  | Response (body : ReadOutcome)
  | GetErr (err : string).

Record World : Type := mkWorld {
  environ : gmap string string;
  upstream : string → GetOutcome;
  requests : list string;
  logged : list string
}.

(** Stateful computations that may panic. *)
Definition M (A : Type) : Type := World → result A * World.

#[global] Instance M_ret : MRet M := fun A a w => (Ok a, w).
#[global] Instance M_bind : MBind M := fun A B f m w =>
  match m w with
  | (Ok a, w') => f a w'
  | (Panic e, w') => (Panic e, w')
  end.

Definition lift {A : Type} (r : result A) : M A := fun w => (r, w).

(** [os.Getenv]: the empty string when the variable is unset. *)
Definition Getenv (key : string) : M string :=
  fun w => (Ok (default "" (environ w !! key)), w).

(** [http.Get]: the upstream answers, and the request is recorded. *)
Definition http_Get (url : string) : M GetOutcome :=
  fun w => (Ok (upstream w url),
            mkWorld (environ w) (upstream w) (requests w ++ [url]) (logged w)).

(** [log.Printf] with the message already formatted. *)
Definition log_Printf (msg : string) : M unit :=
  fun w => (Ok tt,
            mkWorld (environ w) (upstream w) (requests w) (logged w ++ [msg])).

(** ** The HTTP response under construction *)

(** A JSON document, as [encoding/json] builds it from a value. *)
#[warnings="-register-all"] Inductive json : Type :=
  | JNull
  | JString (s : string)
  | JNumber (n : Z)
  | JObject (members : list (string * json)).

(** One write to the response body: literal text, or what
    [Encoder.Encode] emits for a document (its text and a line feed). *)
Inductive chunk : Type :=
  | Text (s : string)
  | Doc (j : json).

(** [http.ResponseWriter]: the header map the handler edits, the status
    line once written (with the headers as they were at that moment) and
    the body written so far. Both handlers set [Content-Type] themselves,
    so the content sniffing of [net/http] is left out. *)
Record ResponseWriter : Type := mkResponse {
  header : gmap string (list string);
  sent : option (Z * gmap string (list string));
  body : list chunk
}.

Definition newResponse : ResponseWriter := mkResponse ∅ None [].

(** [w.Header().Set(key, value)] *)
Definition Header_Set (key value : string) (w : ResponseWriter)
  : ResponseWriter :=
  mkResponse (<[key := [value]]> (header w)) (sent w) (body w).

(** [w.WriteHeader(code)]: only the first call counts. *)
Definition WriteHeader (code : Z) (w : ResponseWriter) : ResponseWriter :=
  match sent w with
  | Some _ => w
  | None => mkResponse (header w) (Some (code, header w)) (body w)
  end.

(** [w.Write]: an implicit [WriteHeader(200)] when none came before. *)
Definition Write (c : chunk) (w : ResponseWriter) : ResponseWriter :=
  let w' := WriteHeader 200 w in
  mkResponse (header w') (sent w') (body w' ++ [c]).

(** [io.WriteString(w, s)] *)
Definition io_WriteString (s : string) (w : ResponseWriter) : ResponseWriter :=
  Write (Text s) w.

(** [http.Error(w, error, code)] of [net/http]. *)
Definition http_Error (error : string) (code : Z) (w : ResponseWriter)
  : ResponseWriter :=
  let w := Header_Set "Content-Type" "text/plain; charset=utf-8" w in
  let w := Header_Set "X-Content-Type-Options" "nosniff" w in
  let w := WriteHeader code w in
  Write (Text (error +:+ newline)) w.

(** The status code of the response, once one has been written. *)
Definition statusCode (w : ResponseWriter) : option Z := fst <$> sent w.

(** The value of a header of the response as sent. *)
Definition sentHeader (key : string) (w : ResponseWriter)
  : option (list string) :=
  sent w ≫= λ p, snd p !! key.

(** *** The strings [encoding/json] writes

    The encoder walks a Go string with [utf8.DecodeRuneInString] and
    writes U+FFFD in place of every byte at which no well-formed UTF-8
    sequence starts; the other bytes stand for themselves. *)

(** The entry of the [first] table of [unicode/utf8] for a leading byte:
    a byte that stands alone, one that starts nothing, or the lead of a
    sequence of [size] bytes whose second byte lies in [lo..hi]. *)
Inductive lead : Type :=
  | Single
  | Illegal
  | Lead (size lo hi : nat).

Definition first (b : nat) : lead :=
  if Nat.ltb b 0x80 then Single
  else if Nat.ltb b 0xC2 then Illegal
  else if Nat.ltb b 0xE0 then Lead 2 0x80 0xBF
  else if Nat.eqb b 0xE0 then Lead 3 0xA0 0xBF
  else if Nat.ltb b 0xED then Lead 3 0x80 0xBF
  else if Nat.eqb b 0xED then Lead 3 0x80 0x9F
  else if Nat.ltb b 0xF0 then Lead 3 0x80 0xBF
  else if Nat.eqb b 0xF0 then Lead 4 0x90 0xBF
  else if Nat.ltb b 0xF4 then Lead 4 0x80 0xBF
  else if Nat.eqb b 0xF4 then Lead 4 0x80 0x8F
  else Illegal.

Definition inRange (lo hi : nat) (c : ascii) : bool :=
  Nat.leb lo (nat_of_ascii c) && Nat.leb (nat_of_ascii c) hi.

(** The bytes EF BF BD of U+FFFD. *)
Definition replacementChar : string :=
  String "239" (String "191" (String "189" EmptyString)).

(** The string a Go string stands for once encoded: at each position a
    well-formed sequence is kept, and a byte that starts none is replaced
    by U+FFFD and the walk resumes at the next byte. *)
Fixpoint toValidUTF8 (s : string) : string :=
  match s with
  | EmptyString => EmptyString
  | String s0 tl =>
      match first (nat_of_ascii s0) with
      | Single => String s0 (toValidUTF8 tl)
      | Illegal => replacementChar +:+ toValidUTF8 tl
      | Lead size lo hi =>
          match tl with
          | String s1 tl1 =>
              if inRange lo hi s1 then
                if Nat.leb size 2 then String s0 (String s1 (toValidUTF8 tl1))
                else
                  match tl1 with
                  | String s2 tl2 =>
                      if inRange 0x80 0xBF s2 then
                        if Nat.leb size 3
                        then String s0 (String s1 (String s2 (toValidUTF8 tl2)))
                        else
                          match tl2 with
                          | String s3 tl3 =>
                              if inRange 0x80 0xBF s3
                              then String s0 (String s1 (String s2
                                     (String s3 (toValidUTF8 tl3))))
                              else replacementChar +:+ toValidUTF8 tl
                          | EmptyString => replacementChar +:+ toValidUTF8 tl
                          end
                      else replacementChar +:+ toValidUTF8 tl
                  | EmptyString => replacementChar +:+ toValidUTF8 tl
                  end
              else replacementChar +:+ toValidUTF8 tl
          | EmptyString => replacementChar +:+ toValidUTF8 tl
          end
      end
  end.

(** [utf8.ValidString]: every position starts a well-formed sequence. *)
Fixpoint validUTF8 (s : string) : bool :=
  match s with
  | EmptyString => true
  | String s0 tl =>
      match first (nat_of_ascii s0) with
      | Single => validUTF8 tl
      | Illegal => false
      | Lead size lo hi =>
          match tl with
          | String s1 tl1 =>
              inRange lo hi s1
              && (if Nat.leb size 2 then validUTF8 tl1
                  else
                    match tl1 with
                    | String s2 tl2 =>
                        inRange 0x80 0xBF s2
                        && (if Nat.leb size 3 then validUTF8 tl2
                            else
                              match tl2 with
                              | String s3 tl3 =>
                                  inRange 0x80 0xBF s3 && validUTF8 tl3
                              | EmptyString => false
                              end)
                    | EmptyString => false
                    end)
          | EmptyString => false
          end
      end
  end.

(** A string field tagged [omitempty]: left out when the Go string is
    empty, written as the encoder writes strings otherwise. *)
Definition omitemptyString (name value : string) : list (string * json) :=
  if String.eqb value "" then [] else [(name, JString (toValidUTF8 value))].

(** The records all of whose strings are valid UTF-8. *)
Definition validBookDetails (b : BookDetails.t) : bool :=
  validUTF8 (BookDetails.ID b) && validUTF8 (BookDetails.Author b)
  && validUTF8 (BookDetails.Year b) && validUTF8 (BookDetails.Type_ b)
  && validUTF8 (BookDetails.Publisher b) && validUTF8 (BookDetails.Language b)
  && validUTF8 (BookDetails.ISBN10 b) && validUTF8 (BookDetails.ISBN13 b).

(** An int field tagged [omitempty]. *)
Definition omitemptyInt (name : string) (value : Z) : list (string * json) :=
  if Z.eqb value 0 then [] else [(name, JNumber value)].

(** The document [encoding/json] builds for a [*BookDetails], following
    the struct tags. *)
Definition marshalBookDetails (p : option BookDetails.t) : json :=
  match p with
  | None => JNull
  | Some b =>
      JObject
        (omitemptyString "id" (BookDetails.ID b)
         ++ omitemptyString "author" (BookDetails.Author b)
         ++ omitemptyString "year" (BookDetails.Year b)
         ++ omitemptyString "type" (BookDetails.Type_ b)
         ++ omitemptyInt "pages" (BookDetails.Pages b)
         ++ omitemptyString "publisher" (BookDetails.Publisher b)
         ++ omitemptyString "language" (BookDetails.Language b)
         ++ omitemptyString "ISBN-10" (BookDetails.ISBN10 b)
         ++ omitemptyString "ISBN-13" (BookDetails.ISBN13 b))
  end.

(** [json.NewEncoder(w).Encode(bookDetails)] *)
Definition Encode (p : option BookDetails.t) (w : ResponseWriter)
  : ResponseWriter :=
  Write (Doc (marshalBookDetails p)) w.

(** [*http.Request], as far as the handlers look at it: [mux.Vars(r)]. *)
Record Request : Type := mkRequest { Vars : gmap string string }.

(** ** The translation of the external answer *)

(** [getPrintType] *)
Definition getPrintType (externalBookDetails : ExternalBookDetails.t)
  : result string :=
  item ← index (ExternalBookDetails.Items externalBookDetails) 0;
  if String.eqb (VolumeInfo.PrintType (Item.VolumeInfo item)) "BOOK"
  then mret "paperback"
  else mret "unknown".

(** [getLanguage] *)
Definition getLanguage (externalBookDetails : ExternalBookDetails.t)
  : result string :=
  item ← index (ExternalBookDetails.Items externalBookDetails) 0;
  if String.eqb (VolumeInfo.Language (Item.VolumeInfo item)) "en"
  then mret "English"
  else mret "unknown".

(** The [for ... range industryIdentifiers] loop of [getISBN]: [Some] is
    the [return] inside the loop, [None] is falling out of it. *)
Fixpoint rangeIdentifiers (kind : string)
    (industryIdentifiers : list IndustryIdentifier.t) : option string :=
  match industryIdentifiers with
  | [] => None
  | industryIdentifier :: rest =>
      if String.eqb (IndustryIdentifier.Type_ industryIdentifier) kind
      then Some (IndustryIdentifier.Identifier industryIdentifier)
      else rangeIdentifiers kind rest
  end.

(** [getISBN] *)
Definition getISBN (kind : string)
    (externalBookDetails : ExternalBookDetails.t) : result string :=
  item ← index (ExternalBookDetails.Items externalBookDetails) 0;
  let industryIdentifiers :=
    VolumeInfo.IndustryIdentifiers (Item.VolumeInfo item) in
  match rangeIdentifiers kind industryIdentifiers with
  | Some identifier => mret identifier
  | None => mret "1234567890"
  end.

(** The composite literal [BookDetails{...}] of
    [fetchDetailsFromExternalService]: the field values are evaluated in
    the order they are written, each with its own index expressions. *)
Definition translate (id : string)
    (externalBookDetails : ExternalBookDetails.t) : result BookDetails.t :=
  let items := ExternalBookDetails.Items externalBookDetails in
  item ← index items 0;
  author ← index (VolumeInfo.Authors (Item.VolumeInfo item)) 0;
  item ← index items 0;
  let year := VolumeInfo.PublishedDate (Item.VolumeInfo item) in
  type ← getPrintType externalBookDetails;
  item ← index items 0;
  let pages := VolumeInfo.PageCount (Item.VolumeInfo item) in
  item ← index items 0;
  let publisher := VolumeInfo.Publisher (Item.VolumeInfo item) in
  language ← getLanguage externalBookDetails;
  isbn10 ← getISBN "ISBN_10" externalBookDetails;
  isbn13 ← getISBN "ISBN_13" externalBookDetails;
  mret (BookDetails.mk id author year type pages publisher language
          isbn10 isbn13).

(** ** The resolver and the handlers *)

Section Service.

(** [json.Unmarshal(data, &v)]: from the bytes and the value [v] points
    to before the call, the value it points to afterwards and the error
    returned, if any. *)
Variable json_Unmarshal :
  string → ExternalBookDetails.t → ExternalBookDetails.t * option string.

(** [fetchDetailsFromExternalService] *)
Definition fetchDetailsFromExternalService (isbn id : string)
  : M (option BookDetails.t) :=
  response ←
    http_Get ("https://www.googleapis.com/books/v1/volumes?q=isbn:" +:+ isbn);
  match response with
  | GetErr err =>
      log_Printf
        ("Fetching details from external service failed with error "
         +:+ err +:+ newline);;
      mret None
  | Response (ReadErr err) =>
      log_Printf
        ("Can't read response from external service with error "
         +:+ err +:+ newline);;
      mret None
  | Response (ReadAll body) =>
      let externalBookDetails :=
        fst (json_Unmarshal body ExternalBookDetails.zero) in
      bookDetails ← lift (translate id externalBookDetails);
      mret (Some bookDetails)
  end.

(** The record of the mock path of [getBookDetails]. *)
Definition mockBookDetails (id : string) : BookDetails.t :=
  BookDetails.mk id "William Shakespeare" "1595" "paperback" 200
    "PublisherX" "English" "1234567890" "123-1234567890".

(** [getBookDetails] *)
Definition getBookDetails (id : string) : M (option BookDetails.t) :=
  toggle ← Getenv "ENABLE_EXTERNAL_BOOK_SERVICE";
  if String.eqb toggle "true"
  then fetchDetailsFromExternalService "0486424618" id
  else mret (Some (mockBookDetails id)).

(** [Health] *)
Definition Health (w : ResponseWriter) (r : Request) : M ResponseWriter :=
  let w := Header_Set "Content-Type" "application/json" w in
  let w := WriteHeader 200 w in
  mret (io_WriteString "{'status':'Details is healthy'}" w).

(** [GetDetails] *)
Definition GetDetails (w : ResponseWriter) (r : Request) : M ResponseWriter :=
  let params := Vars r in
  let id := default "" (params !! "id") in
  if String.eqb id ""
  then mret (http_Error "please provide product id" 400 w)
  else
    bookDetails ← getBookDetails id;
    let w := Header_Set "Content-Type" "application/json" w in
    let w := WriteHeader 200 w in
    mret (Encode bookDetails w).

End Service.

(** ** Well-formed JSON texts

    A recogniser of the JSON grammar (RFC 8259) over the bytes of a text:
    what a client that trusts [Content-Type: application/json] will run on
    the body. Each function returns the input left after the construct it
    recognises. *)
Module JsonText.

Definition isWs (c : ascii) : bool :=
  Ascii.eqb c " " || Ascii.eqb c "009" || Ascii.eqb c "010"
  || Ascii.eqb c "013".

Definition isDigit (c : ascii) : bool :=
  let n := nat_of_ascii c in Nat.leb 48 n && Nat.leb n 57.

Definition isHex (c : ascii) : bool :=
  let n := nat_of_ascii c in
  isDigit c || (Nat.leb 65 n && Nat.leb n 70)
  || (Nat.leb 97 n && Nat.leb n 102).

Definition isEscape (c : ascii) : bool :=
  Ascii.eqb c dquote || Ascii.eqb c "\" || Ascii.eqb c "/"
  || Ascii.eqb c "b" || Ascii.eqb c "f" || Ascii.eqb c "n"
  || Ascii.eqb c "r" || Ascii.eqb c "t".

Fixpoint skipWs (s : string) : string :=
  match s with
  | String c rest => if isWs c then skipWs rest else s
  | EmptyString => s
  end.

Fixpoint skipDigits (s : string) : string :=
  match s with
  | String c rest => if isDigit c then skipDigits rest else s
  | EmptyString => s
  end.

(** At least one digit. *)
Definition digits (s : string) : option string :=
  match s with
  | String c rest => if isDigit c then Some (skipDigits rest) else None
  | EmptyString => None
  end.

Fixpoint literal (word s : string) : option string :=
  match word, s with
  | EmptyString, _ => Some s
  | String a word', String b s' =>
      if Ascii.eqb a b then literal word' s' else None
  | String _ _, EmptyString => None
  end.

(** The characters of a string after its opening quotation mark, up to
    and including the closing one. *)
Fixpoint stringBody (s : string) : option string :=
  match s with
  | EmptyString => None
  | String c rest =>
      if Ascii.eqb c dquote then Some rest
      else if Ascii.eqb c "\" then
        match rest with
        | String e rest' =>
            if isEscape e then stringBody rest'
            else if Ascii.eqb e "u" then
              match rest' with
              | String h1 (String h2 (String h3 (String h4 rest''))) =>
                  if isHex h1 && isHex h2 && isHex h3 && isHex h4
                  then stringBody rest''
                  else None
              | _ => None
              end
            else None
        | EmptyString => None
        end
      else if Nat.ltb (nat_of_ascii c) 32 then None
      else stringBody rest
  end.

Definition number (s : string) : option string :=
  let s := match s with
           | String c rest => if Ascii.eqb c "-" then rest else s
           | EmptyString => s
           end in
  let int :=
    match s with
    | String c rest =>
        if Ascii.eqb c "0" then Some rest
        else if isDigit c then Some (skipDigits rest)
        else None
    | EmptyString => None
    end in
  s ← int;
  s ← match s with
      | String c rest => if Ascii.eqb c "." then digits rest else Some s
      | EmptyString => Some s
      end;
  match s with
  | String c rest =>
      if Ascii.eqb c "e" || Ascii.eqb c "E" then
        match rest with
        | String sign rest' =>
            if Ascii.eqb sign "+" || Ascii.eqb sign "-"
            then digits rest'
            else digits rest
        | EmptyString => None
        end
      else Some s
  | EmptyString => Some s
  end.

Fixpoint value (fuel : nat) (s : string) {struct fuel} : option string :=
  match fuel with
  | O => None
  | S fuel =>
      match s with
      | EmptyString => None
      | String c rest =>
          if Ascii.eqb c "{" then
            match skipWs rest with
            | String c' rest' =>
                if Ascii.eqb c' "}" then Some rest' else members fuel rest
            | EmptyString => None
            end
          else if Ascii.eqb c "[" then
            match skipWs rest with
            | String c' rest' =>
                if Ascii.eqb c' "]" then Some rest' else elements fuel rest
            | EmptyString => None
            end
          else if Ascii.eqb c dquote then stringBody rest
          else if Ascii.eqb c "t" then literal "true" s
          else if Ascii.eqb c "f" then literal "false" s
          else if Ascii.eqb c "n" then literal "null" s
          else number s
      end
  end
with members (fuel : nat) (s : string) {struct fuel} : option string :=
  match fuel with
  | O => None
  | S fuel =>
      match skipWs s with
      | String c rest =>
          if Ascii.eqb c dquote then
            rest ← stringBody rest;
            match skipWs rest with
            | String c rest =>
                if Ascii.eqb c ":" then
                  rest ← value fuel (skipWs rest);
                  match skipWs rest with
                  | String c rest =>
                      if Ascii.eqb c "," then members fuel rest
                      else if Ascii.eqb c "}" then Some rest
                      else None
                  | EmptyString => None
                  end
                else None
            | EmptyString => None
            end
          else None
      | EmptyString => None
      end
  end
with elements (fuel : nat) (s : string) {struct fuel} : option string :=
  match fuel with
  | O => None
  | S fuel =>
      rest ← value fuel (skipWs s);
      match skipWs rest with
      | String c rest =>
          if Ascii.eqb c "," then elements fuel rest
          else if Ascii.eqb c "]" then Some rest
          else None
      | EmptyString => None
      end
  end.

(** A whole text: one value between optional white space. Every step of
    [value] consumes a byte, so the length of the text is fuel enough. *)
Definition wellFormed (s : string) : bool :=
  match value (S (String.length s)) (skipWs s) with
  | Some rest =>
      match skipWs rest with
      | EmptyString => true
      | String _ _ => false
      end
  | None => false
  end.

(** The text a quoted string stands for in the examples below. *)
Definition quoted (s : string) : string :=
  String dquote (s +:+ String dquote EmptyString).

End JsonText.

(** The health report the [Status] type describes, as JSON text. *)
Definition healthyText : string :=
  "{" +:+ JsonText.quoted "status" +:+ ":"
  +:+ JsonText.quoted "Details is healthy" +:+ "}".

(** ** Modes and the fixed upstream query *)

(** The value of the toggle in the environment, if set. *)
Definition toggle (wd : World) : option string :=
  environ wd !! "ENABLE_EXTERNAL_BOOK_SERVICE".

(** The one URL the external path requests. *)
Definition fixedQuery : string :=
  "https://www.googleapis.com/books/v1/volumes?q=isbn:0486424618".

(** The world once the external path has sent its request. *)
Definition asked (wd : World) : World :=
  mkWorld (environ wd) (upstream wd) (requests wd ++ [fixedQuery]) (logged wd).

(** A response nothing has been written to, as [net/http] hands it to a
    handler. *)
Definition unwritten (w : ResponseWriter) : Prop :=
  sent w = None ∧ body w = [].

(** ** Sample inputs

    A stubbed upstream and decoder, used to run the service on concrete
    requests. *)

Definition sampleVolume (authors : list string) (printType language : string)
    (identifiers : list IndustryIdentifier.t) : VolumeInfo.t :=
  VolumeInfo.mk "Romeo and Juliet" authors "Courier Corporation" "1993" ""
    identifiers (ReadingModes.mk false true) 96 printType ["Drama"]
    "NOT_MATURE" false "0.2.1.0.preview.1" (PanelizationSummary.mk false false)
    (ImageLinks.mk "" "") language "" "" "".

Definition sampleItem (volume : VolumeInfo.t) : Item.t :=
  Item.mk "books#volume" "kL7JAwAAQBAJ" "etag" "" volume
    (SaleInfo.mk "US" "NOT_FOR_SALE" false)
    (AccessInfo.mk "US" "PARTIAL" true false "ALLOWED" false false ""
       "SAMPLE" false)
    (SearchInfo.mk "").

Definition sampleIdentifiers : list IndustryIdentifier.t :=
  [IndustryIdentifier.mk "ISBN_10" "111"; IndustryIdentifier.mk "ISBN_13" "222"].

Definition sampleAnswer (volume : VolumeInfo.t) : ExternalBookDetails.t :=
  ExternalBookDetails.mk "books#volumes" 1 [sampleItem volume].

(** A decoder that knows four bodies; on any other it reports a syntax
    error and leaves the target as it was. *)
Definition stubUnmarshal (data : string) (v : ExternalBookDetails.t)
  : ExternalBookDetails.t * option string :=
  if String.eqb data "book-en" then
    (sampleAnswer
       (sampleVolume ["William Shakespeare"] "BOOK" "en" sampleIdentifiers),
     None)
  else if String.eqb data "magazine-fr" then
    (sampleAnswer
       (sampleVolume ["Anonyme"] "MAGAZINE" "fr"
          [IndustryIdentifier.mk "OTHER" "x"; IndustryIdentifier.mk "ISBN_13" "9";
           IndustryIdentifier.mk "ISBN_13" "8"]),
     None)
  else if String.eqb data "no-authors" then
    (sampleAnswer (sampleVolume [] "BOOK" "en" sampleIdentifiers), None)
  else if String.eqb data "no-items" then
    (ExternalBookDetails.mk "books#volumes" 0 [], None)
  else (v, Some "invalid character looking for beginning of value").

(** The same decoder with its errors dropped. *)
Definition quietUnmarshal (data : string) (v : ExternalBookDetails.t)
  : ExternalBookDetails.t * option string :=
  (fst (stubUnmarshal data v), None).

Definition mockWorld : World :=
  mkWorld ∅ (λ _, GetErr "no route to host") [] [].

Definition externalWorld (answer : GetOutcome) : World :=
  mkWorld {[ "ENABLE_EXTERNAL_BOOK_SERVICE" := "true" ]} (λ _, answer) [] [].

Definition detailsRequest (id : string) : Request :=
  mkRequest {[ "id" := id ]}.

(** Two further worlds in external mode: the upstream answers the fixed
    query alike and differs elsewhere; the environments agree on the
    toggle and differ elsewhere; the traces differ. *)
Definition busyWorld : World :=
  mkWorld
    (<[ "PATH" := "/usr/bin" ]> {[ "ENABLE_EXTERNAL_BOOK_SERVICE" := "true" ]})
    (λ url, if String.eqb url fixedQuery
            then Response (ReadAll "book-en")
            else GetErr "no such host")
    ["https://example.org/"] ["started"].

(** An answer whose first item is the English book, followed by a second
    item and with other top-level fields. *)
Definition crowdedUnmarshal (data : string) (v : ExternalBookDetails.t)
  : ExternalBookDetails.t * option string :=
  (ExternalBookDetails.mk "other#kind" 7
     [Item.mk "k" "another-id" "e" "link"
        (VolumeInfo.mk "Another title" ["William Shakespeare"; "Second Author"]
           "Courier Corporation" "1993" "a description" sampleIdentifiers
           (ReadingModes.mk true true) 96 "BOOK" [] "MATURE" true "1"
           (PanelizationSummary.mk true true) (ImageLinks.mk "s" "t") "en"
           "p" "i" "c")
        (SaleInfo.mk "FR" "FOR_SALE" true)
        (AccessInfo.mk "FR" "ALL_PAGES" false true "DENIED" true true "w"
           "FULL" true)
        (SearchInfo.mk "snippet");
      sampleItem (sampleVolume [] "MAGAZINE" "fr" [])],
   None).

(** * Properties *)

(** ** The recogniser on sample texts *)

Example wellFormed_healthyText : JsonText.wellFormed healthyText = true.
Proof. reflexivity. Qed.

Example wellFormed_nested :
  JsonText.wellFormed " [1, -2.5e+3, true, null, {}, [ ] ] " = true.
Proof. reflexivity. Qed.

Example wellFormed_trailing_comma : JsonText.wellFormed "[1,]" = false.
Proof. reflexivity. Qed.

Example wellFormed_trailing_text : JsonText.wellFormed "null x" = false.
Proof. reflexivity. Qed.

(** ** Indexing and the response writer *)

Lemma index_head {A : Type} (x : A) (l : list A) : index (x :: l) 0 = Ok x.
Proof. reflexivity. Qed.

Lemma index_nil {A : Type} (i : nat) :
  index (@nil A) i = Panic (IndexOutOfRange i 0).
Proof. reflexivity. Qed.

Lemma statusCode_WriteHeader (code : Z) (w : ResponseWriter) :
  sent w = None → statusCode (WriteHeader code w) = Some code.
Proof. intros Hs. unfold statusCode, WriteHeader. rewrite Hs. reflexivity. Qed.

Lemma sent_Write (c : chunk) (w : ResponseWriter) (p : Z * gmap string (list string)) :
  sent w = Some p → sent (Write c w) = Some p.
Proof. intros Hs. unfold Write, WriteHeader. rewrite Hs. simpl. exact Hs. Qed.

Lemma body_Write (c : chunk) (w : ResponseWriter) :
  body (Write c w) = body w ++ [c].
Proof. unfold Write, WriteHeader. destruct (sent w); reflexivity. Qed.

(** A handler that sets [Content-Type], writes the status and then the
    body in one piece produces exactly that response. *)
Lemma respond_shape (ctype : string) (code : Z) (c : chunk) (w : ResponseWriter) :
  unwritten w →
  let w' := Write c (WriteHeader code (Header_Set "Content-Type" ctype w)) in
  statusCode w' = Some code
  ∧ sentHeader "Content-Type" w' = Some [ctype]
  ∧ body w' = [c].
Proof.
  intros [Hs Hb] w'. subst w'.
  unfold Write, WriteHeader, Header_Set, statusCode, sentHeader. simpl.
  rewrite Hs. simpl. rewrite Hb. repeat split.
  apply lookup_insert_eq.
Qed.

(** ** The two branches of the resolver *)

Section Resolver.

Variable U : string → ExternalBookDetails.t → ExternalBookDetails.t * option string.

Lemma getenv_toggle_true (wd : World) :
  String.eqb (default "" (toggle wd)) "true" = true ↔ toggle wd = Some "true".
Proof.
  rewrite String.eqb_eq. destruct (toggle wd) as [v|]; simpl; split.
  - intros ->. reflexivity.
  - intros [= ->]. reflexivity.
  - discriminate.
  - discriminate.
Qed.

Lemma getBookDetails_mock (id : string) (wd : World) :
  toggle wd ≠ Some "true" →
  getBookDetails U id wd = (Ok (Some (mockBookDetails id)), wd).
Proof.
  intros Hm. unfold getBookDetails, Getenv, mbind, M_bind. fold (toggle wd).
  destruct (String.eqb (default "" (toggle wd)) "true") eqn:E.
  - apply getenv_toggle_true in E. contradiction.
  - reflexivity.
Qed.

Lemma getBookDetails_external (id : string) (wd : World) :
  toggle wd = Some "true" →
  getBookDetails U id wd = fetchDetailsFromExternalService U "0486424618" id wd.
Proof.
  intros Hx. unfold getBookDetails, Getenv, mbind, M_bind. fold (toggle wd).
  rewrite (proj2 (getenv_toggle_true wd) Hx). reflexivity.
Qed.

(** The external path, case by case on what the upstream does. *)
Lemma fetch_GetErr (id err : string) (wd : World) :
  upstream wd fixedQuery = GetErr err →
  fetchDetailsFromExternalService U "0486424618" id wd
  = (Ok None,
     mkWorld (environ wd) (upstream wd) (requests wd ++ [fixedQuery])
       (logged wd
        ++ ["Fetching details from external service failed with error "
            +:+ err +:+ newline])).
Proof.
  intros Hu. unfold fetchDetailsFromExternalService, http_Get, mbind, M_bind.
  change ("https://www.googleapis.com/books/v1/volumes?q=isbn:" +:+ "0486424618")
    with fixedQuery.
  rewrite Hu. reflexivity.
Qed.

Lemma fetch_ReadErr (id err : string) (wd : World) :
  upstream wd fixedQuery = Response (ReadErr err) →
  fetchDetailsFromExternalService U "0486424618" id wd
  = (Ok None,
     mkWorld (environ wd) (upstream wd) (requests wd ++ [fixedQuery])
       (logged wd
        ++ ["Can't read response from external service with error "
            +:+ err +:+ newline])).
Proof.
  intros Hu. unfold fetchDetailsFromExternalService, http_Get, mbind, M_bind.
  change ("https://www.googleapis.com/books/v1/volumes?q=isbn:" +:+ "0486424618")
    with fixedQuery.
  rewrite Hu. reflexivity.
Qed.

Lemma fetch_ReadAll (id data : string) (wd : World) :
  upstream wd fixedQuery = Response (ReadAll data) →
  fetchDetailsFromExternalService U "0486424618" id wd
  = (match translate id (fst (U data ExternalBookDetails.zero)) with
     | Ok b => Ok (Some b)
     | Panic e => Panic e
     end, asked wd).
Proof.
  intros Hu. unfold fetchDetailsFromExternalService, http_Get, mbind, M_bind.
  change ("https://www.googleapis.com/books/v1/volumes?q=isbn:" +:+ "0486424618")
    with fixedQuery.
  rewrite Hu. unfold lift, asked.
  destruct (translate id (fst (U data ExternalBookDetails.zero))); reflexivity.
Qed.

End Resolver.

(** ** The details handler, by the two cases of its guard *)

Section Handler.

Variable U : string → ExternalBookDetails.t → ExternalBookDetails.t * option string.

Lemma GetDetails_empty (w : ResponseWriter) (r : Request) (wd : World) :
  default "" (Vars r !! "id") = "" →
  GetDetails U w r wd = (Ok (http_Error "please provide product id" 400 w), wd).
Proof. intros He. unfold GetDetails. rewrite He. reflexivity. Qed.

Lemma GetDetails_lookup (w : ResponseWriter) (r : Request) (wd : World) :
  default "" (Vars r !! "id") ≠ "" →
  GetDetails U w r wd
  = match getBookDetails U (default "" (Vars r !! "id")) wd with
    | (Ok p, wd') =>
        (Ok (Encode p (WriteHeader 200
                         (Header_Set "Content-Type" "application/json" w))),
         wd')
    | (Panic e, wd') => (Panic e, wd')
    end.
Proof.
  intros Hne. unfold GetDetails.
  rewrite (proj2 (String.eqb_neq _ _) Hne).
  unfold mbind, M_bind.
  destruct (getBookDetails U (default "" (Vars r !! "id")) wd) as [[p|e] wd'];
    reflexivity.
Qed.

Lemma http_Error_shape (msg : string) (code : Z) (w : ResponseWriter) :
  unwritten w →
  let w' := http_Error msg code w in
  statusCode w' = Some code
  ∧ sentHeader "Content-Type" w' = Some ["text/plain; charset=utf-8"]
  ∧ sentHeader "X-Content-Type-Options" w' = Some ["nosniff"]
  ∧ body w' = [Text (msg +:+ newline)].
Proof.
  intros [Hs Hb] w'. subst w'.
  unfold http_Error, Write, WriteHeader, Header_Set, statusCode, sentHeader.
  simpl. rewrite Hs. simpl. rewrite Hb. repeat split.
  - rewrite lookup_insert_ne by discriminate. apply lookup_insert_eq.
  - apply lookup_insert_eq.
Qed.

End Handler.

(** ** The strings of the encoder *)

Lemma toValidUTF8_nonempty (s : string) : s ≠ "" → toValidUTF8 s ≠ "".
Proof.
  destruct s as [|s0 tl]; [congruence|]. intros _. simpl.
  destruct (first (nat_of_ascii s0)) as [| |size lo hi]; try discriminate.
  destruct tl as [|s1 tl1]; [discriminate|].
  destruct (inRange lo hi s1); [|discriminate].
  destruct (Nat.leb size 2); [discriminate|].
  destruct tl1 as [|s2 tl2]; [discriminate|].
  destruct (inRange 128 191 s2); [|discriminate].
  destruct (Nat.leb size 3); [discriminate|].
  destruct tl2 as [|s3 tl3]; [discriminate|].
  destruct (inRange 128 191 s3); discriminate.
Qed.

(** A string that is valid UTF-8 is written as it is. *)
Lemma toValidUTF8_valid (s : string) : validUTF8 s = true → toValidUTF8 s = s.
Proof.
  assert (Hlen : ∀ (n : nat) (t : string),
             (String.length t <= n)%nat → validUTF8 t = true →
             toValidUTF8 t = t).
  { induction n as [|n IH]; intros t Hn Hv.
    - destruct t; [reflexivity|simpl in Hn; lia].
    - destruct t as [|s0 tl]; [reflexivity|]. simpl in Hn, Hv |- *.
      destruct (first (nat_of_ascii s0)) as [| |size lo hi].
      + f_equal. apply IH; [lia|exact Hv].
      + discriminate.
      + destruct tl as [|s1 tl1]; [discriminate|]. simpl in Hn.
        destruct (inRange lo hi s1); [simpl in Hv|discriminate].
        destruct (Nat.leb size 2).
        { do 2 f_equal. apply IH; [lia|exact Hv]. }
        destruct tl1 as [|s2 tl2]; [discriminate|]. simpl in Hn.
        destruct (inRange 128 191 s2); [simpl in Hv|discriminate].
        destruct (Nat.leb size 3).
        { do 3 f_equal. apply IH; [lia|exact Hv]. }
        destruct tl2 as [|s3 tl3]; [discriminate|]. simpl in Hn.
        destruct (inRange 128 191 s3); [simpl in Hv|discriminate].
        do 4 f_equal. apply IH; [lia|exact Hv]. }
  exact (Hlen (String.length s) s (le_n _)).
Qed.

(** The encoder on sample strings: a two-byte letter is kept, a lone
    byte FF, an overlong pair, a surrogate and a truncated sequence are
    replaced byte by byte, and a well-formed U+FFFD stays. *)
Example toValidUTF8_keeps_e_acute :
  toValidUTF8 (String "195" (String "169" EmptyString))
  = String "195" (String "169" EmptyString).
Proof. reflexivity. Qed.

Example toValidUTF8_lone_byte :
  toValidUTF8 (String "255" EmptyString) = replacementChar.
Proof. reflexivity. Qed.

Example toValidUTF8_overlong :
  toValidUTF8 (String "192" (String "128" EmptyString))
  = replacementChar +:+ replacementChar.
Proof. reflexivity. Qed.

Example toValidUTF8_surrogate :
  toValidUTF8 (String "237" (String "160" (String "128" EmptyString)))
  = replacementChar +:+ replacementChar +:+ replacementChar.
Proof. reflexivity. Qed.

Example toValidUTF8_truncated :
  toValidUTF8 ("a" +:+ String "226" (String "130" EmptyString))
  = "a" +:+ replacementChar +:+ replacementChar.
Proof. reflexivity. Qed.

Example toValidUTF8_keeps_replacementChar :
  toValidUTF8 replacementChar = replacementChar
  ∧ validUTF8 replacementChar = true.
Proof. split; reflexivity. Qed.

(** Two identifiers that are not valid UTF-8 share one document. *)
Example invalid_ids_share_document :
  marshalBookDetails (Some (mockBookDetails (String "255" EmptyString)))
  = marshalBookDetails (Some (mockBookDetails (String "254" EmptyString))).
Proof. reflexivity. Qed.

Lemma omitemptyString_nonempty (name value : string) :
  value ≠ "" → omitemptyString name value = [(name, JString (toValidUTF8 value))].
Proof.
  intros Hne. unfold omitemptyString.
  rewrite (proj2 (String.eqb_neq _ _) Hne). reflexivity.
Qed.

(** ** The claims *)

(** C1. In mock mode (the toggle unset or set to anything but ["true"]) and
    for a non-empty [id], [GET /details/{id}] answers 200 with the JSON
    encoding of the record whose [ID] is [id] and whose other fields are
    the fixed mock values; nothing is requested upstream or logged. In the
    document the ["id"] member carries [id] as the encoder writes strings,
    which is [id] itself whenever [id] is valid UTF-8. *)
Theorem C1_mock_details
    (U : string → ExternalBookDetails.t → ExternalBookDetails.t * option string)
    (wd : World) (w : ResponseWriter) (r : Request) (id : string) :
  Vars r !! "id" = Some id →
  id ≠ "" →
  toggle wd ≠ Some "true" →
  unwritten w →
  let record :=
    BookDetails.mk id "William Shakespeare" "1595" "paperback" 200
      "PublisherX" "English" "1234567890" "123-1234567890" in
  ∃ w',
    getBookDetails U id wd = (Ok (Some record), wd)
    ∧ GetDetails U w r wd = (Ok w', wd)
    ∧ statusCode w' = Some 200%Z
    ∧ sentHeader "Content-Type" w' = Some ["application/json"]
    ∧ body w' = [Doc (marshalBookDetails (Some record))]
    ∧ marshalBookDetails (Some record)
      = JObject [("id", JString (toValidUTF8 id));
                 ("author", JString "William Shakespeare");
                 ("year", JString "1595");
                 ("type", JString "paperback");
                 ("pages", JNumber 200);
                 ("publisher", JString "PublisherX");
                 ("language", JString "English");
                 ("ISBN-10", JString "1234567890");
                 ("ISBN-13", JString "123-1234567890")]
    ∧ (validUTF8 id = true → toValidUTF8 id = id).
Proof.
  intros Hid Hne Hmock Hw record.
  assert (Hd : default "" (Vars r !! "id") = id) by (rewrite Hid; reflexivity).
  eexists. split; [apply getBookDetails_mock; exact Hmock|]. split.
  { rewrite GetDetails_lookup by (rewrite Hd; exact Hne).
    rewrite Hd, getBookDetails_mock by exact Hmock. reflexivity. }
  destruct (respond_shape "application/json" 200
              (Doc (marshalBookDetails (Some (mockBookDetails id)))) w Hw)
    as (Hc & Hh & Hb).
  split; [exact Hc|]. split; [exact Hh|]. split; [exact Hb|]. split.
  - unfold marshalBookDetails. subst record. simpl BookDetails.ID.
    rewrite (omitemptyString_nonempty "id" id Hne). reflexivity.
  - apply toValidUTF8_valid.
Qed.

(** C9. With an empty [id] (or none among the route variables) the details
    handler answers 400 with a plain-text message and looks nothing up:
    whatever the mode, no request goes out, nothing is logged and the body
    carries no record. *)
Theorem C9_empty_id_bad_request
    (U : string → ExternalBookDetails.t → ExternalBookDetails.t * option string)
    (wd : World) (w : ResponseWriter) (r : Request) :
  default "" (Vars r !! "id") = "" →
  unwritten w →
  ∃ w',
    GetDetails U w r wd = (Ok w', wd)
    ∧ statusCode w' = Some 400%Z
    ∧ sentHeader "Content-Type" w' = Some ["text/plain; charset=utf-8"]
    ∧ body w' = [Text ("please provide product id" +:+ newline)].
Proof.
  intros He Hw. eexists. split.
  - apply GetDetails_empty. exact He.
  - destruct (http_Error_shape "please provide product id" 400 w Hw)
      as (Hc & Hh & _ & Hb).
    auto.
Qed.

(** C10. In mock mode the resolver returns a record, never nil, for every
    [id], the empty string included; so the nil outcome needs the external
    path, and no response of the details handler has the body [null]. *)
Theorem C10_mock_never_nil
    (U : string → ExternalBookDetails.t → ExternalBookDetails.t * option string)
    (wd : World) (id : string) :
  toggle wd ≠ Some "true" →
  (∃ b, getBookDetails U id wd = (Ok (Some b), wd))
  ∧ fst (getBookDetails U id wd) ≠ Ok None
  ∧ (∀ (w : ResponseWriter) (r : Request) (w' : ResponseWriter) (wd' : World),
       unwritten w →
       GetDetails U w r wd = (Ok w', wd') →
       body w' ≠ [Doc JNull]).
Proof.
  intros Hmock. split; [|split].
  - eexists. apply getBookDetails_mock. exact Hmock.
  - rewrite getBookDetails_mock by exact Hmock. discriminate.
  - intros w r w' wd' Hw Hrun.
    destruct (String.eqb_spec (default "" (Vars r !! "id")) "") as [He|Hne].
    + rewrite GetDetails_empty in Hrun by exact He.
      injection Hrun as <- _.
      destruct (http_Error_shape "please provide product id" 400 w Hw)
        as (_ & _ & _ & Hb).
      rewrite Hb. discriminate.
    + rewrite GetDetails_lookup in Hrun by exact Hne.
      rewrite getBookDetails_mock in Hrun by exact Hmock.
      injection Hrun as <- _.
      unfold Encode. rewrite body_Write.
      destruct Hw as [_ Hb]. unfold WriteHeader, Header_Set. simpl.
      destruct (sent w); simpl; rewrite Hb; discriminate.
Qed.

Lemma C1_mock_details_witness :
  ∃ w',
    getBookDetails stubUnmarshal "42" mockWorld
    = (Ok (Some (BookDetails.mk "42" "William Shakespeare" "1595"
                   "paperback" 200 "PublisherX" "English" "1234567890"
                   "123-1234567890")),
       mockWorld)
    ∧ GetDetails stubUnmarshal newResponse (detailsRequest "42") mockWorld
      = (Ok w', mockWorld)
    ∧ statusCode w' = Some 200%Z
    ∧ sentHeader "Content-Type" w' = Some ["application/json"]
    ∧ body w'
      = [Doc (marshalBookDetails
                (Some (BookDetails.mk "42" "William Shakespeare" "1595"
                         "paperback" 200 "PublisherX" "English" "1234567890"
                         "123-1234567890")))]
    ∧ marshalBookDetails
        (Some (BookDetails.mk "42" "William Shakespeare" "1595"
                 "paperback" 200 "PublisherX" "English" "1234567890"
                 "123-1234567890"))
      = JObject [("id", JString (toValidUTF8 "42"));
                 ("author", JString "William Shakespeare");
                 ("year", JString "1595");
                 ("type", JString "paperback");
                 ("pages", JNumber 200);
                 ("publisher", JString "PublisherX");
                 ("language", JString "English");
                 ("ISBN-10", JString "1234567890");
                 ("ISBN-13", JString "123-1234567890")]
    ∧ (validUTF8 "42" = true → toValidUTF8 "42" = "42").
Proof.
  apply (C1_mock_details stubUnmarshal mockWorld newResponse
           (detailsRequest "42") "42").
  - vm_compute. reflexivity.
  - discriminate.
  - vm_compute. discriminate.
  - split; reflexivity.
Defined.

Lemma C9_empty_id_bad_request_witness :
  ∃ w',
    GetDetails stubUnmarshal newResponse (detailsRequest "")
      (externalWorld (Response (ReadAll "book-en")))
    = (Ok w', externalWorld (Response (ReadAll "book-en")))
    ∧ statusCode w' = Some 400%Z
    ∧ sentHeader "Content-Type" w' = Some ["text/plain; charset=utf-8"]
    ∧ body w' = [Text ("please provide product id" +:+ newline)].
Proof.
  apply (C9_empty_id_bad_request stubUnmarshal
           (externalWorld (Response (ReadAll "book-en"))) newResponse
           (detailsRequest "")).
  - vm_compute. reflexivity.
  - split; reflexivity.
Defined.

Lemma C10_mock_never_nil_witness :
  (∃ b, getBookDetails stubUnmarshal "" mockWorld = (Ok (Some b), mockWorld))
  ∧ fst (getBookDetails stubUnmarshal "" mockWorld) ≠ Ok None
  ∧ (∀ (w : ResponseWriter) (r : Request) (w' : ResponseWriter) (wd' : World),
       unwritten w →
       GetDetails stubUnmarshal w r mockWorld = (Ok w', wd') →
       body w' ≠ [Doc JNull]).
Proof.
  apply (C10_mock_never_nil stubUnmarshal mockWorld "").
  vm_compute. discriminate.
Defined.

(** ** The translation, item by item *)

Lemma translate_no_items (id : string) (ext : ExternalBookDetails.t) :
  ExternalBookDetails.Items ext = [] →
  translate id ext = Panic (IndexOutOfRange 0 0).
Proof. intros Hi. unfold translate. rewrite Hi. reflexivity. Qed.

Lemma translate_no_authors (id : string) (ext : ExternalBookDetails.t)
    (item : Item.t) (rest : list Item.t) :
  ExternalBookDetails.Items ext = item :: rest →
  VolumeInfo.Authors (Item.VolumeInfo item) = [] →
  translate id ext = Panic (IndexOutOfRange 0 0).
Proof. intros Hi Ha. unfold translate. rewrite Hi. simpl. rewrite Ha. reflexivity. Qed.

Lemma translate_first (id : string) (ext : ExternalBookDetails.t)
    (item : Item.t) (rest : list Item.t) (author : string) (others : list string) :
  ExternalBookDetails.Items ext = item :: rest →
  VolumeInfo.Authors (Item.VolumeInfo item) = author :: others →
  let info := Item.VolumeInfo item in
  translate id ext
  = Ok (BookDetails.mk id author (VolumeInfo.PublishedDate info)
          (if String.eqb (VolumeInfo.PrintType info) "BOOK"
           then "paperback" else "unknown")
          (VolumeInfo.PageCount info) (VolumeInfo.Publisher info)
          (if String.eqb (VolumeInfo.Language info) "en"
           then "English" else "unknown")
          (default "1234567890"
             (rangeIdentifiers "ISBN_10" (VolumeInfo.IndustryIdentifiers info)))
          (default "1234567890"
             (rangeIdentifiers "ISBN_13" (VolumeInfo.IndustryIdentifiers info)))).
Proof.
  intros Hi Ha info. subst info.
  unfold translate, getPrintType, getLanguage, getISBN.
  rewrite Hi. simpl. rewrite Ha. simpl.
  destruct (String.eqb (VolumeInfo.PrintType (Item.VolumeInfo item)) "BOOK");
    destruct (String.eqb (VolumeInfo.Language (Item.VolumeInfo item)) "en");
    destruct (rangeIdentifiers "ISBN_10" _); destruct (rangeIdentifiers "ISBN_13" _);
    reflexivity.
Qed.

(** Whatever record the translation yields carries the [id] it was given;
    when it yields one for some [id], it yields one for every [id], the
    same but for that field. *)
Lemma translate_ID (id : string) (ext : ExternalBookDetails.t) (b : BookDetails.t) :
  translate id ext = Ok b → BookDetails.ID b = id.
Proof.
  destruct (ExternalBookDetails.Items ext) as [|item rest] eqn:Hi.
  - rewrite translate_no_items by exact Hi. discriminate.
  - destruct (VolumeInfo.Authors (Item.VolumeInfo item)) as [|a others] eqn:Ha.
    + rewrite (translate_no_authors id ext item rest Hi Ha). discriminate.
    + rewrite (translate_first id ext item rest a others Hi Ha).
      intros [= <-]. reflexivity.
Qed.

(** C2. In external mode, when the upstream answer's first item has print
    type ["BOOK"], language ["en"] and the identifiers
    [ISBN_10 "111"; ISBN_13 "222"], the record resolved has type
    ["paperback"], language ["English"], ISBN-10 ["111"], ISBN-13 ["222"]
    and the requested [id] as its ID; any other print type gives type
    ["unknown"] and any other language code gives language ["unknown"].
    The record is resolved whenever that item lists at least one author. *)
Theorem C2_external_translation
    (U : string → ExternalBookDetails.t → ExternalBookDetails.t * option string)
    (wd : World) (id data : string) (item : Item.t) (rest : list Item.t) :
  toggle wd = Some "true" →
  upstream wd fixedQuery = Response (ReadAll data) →
  ExternalBookDetails.Items (fst (U data ExternalBookDetails.zero)) = item :: rest →
  let info := Item.VolumeInfo item in
  (∀ (b : BookDetails.t) (wd' : World),
     getBookDetails U id wd = (Ok (Some b), wd') →
     BookDetails.ID b = id
     ∧ (VolumeInfo.PrintType info = "BOOK" → BookDetails.Type_ b = "paperback")
     ∧ (VolumeInfo.PrintType info ≠ "BOOK" → BookDetails.Type_ b = "unknown")
     ∧ (VolumeInfo.Language info = "en" → BookDetails.Language b = "English")
     ∧ (VolumeInfo.Language info ≠ "en" → BookDetails.Language b = "unknown")
     ∧ (VolumeInfo.IndustryIdentifiers info
        = [IndustryIdentifier.mk "ISBN_10" "111";
           IndustryIdentifier.mk "ISBN_13" "222"] →
        BookDetails.ISBN10 b = "111" ∧ BookDetails.ISBN13 b = "222"))
  ∧ (∀ (author : string) (others : list string),
       VolumeInfo.Authors info = author :: others →
       ∃ b, getBookDetails U id wd = (Ok (Some b), asked wd)).
Proof.
  intros Hx Hu Hi info.
  rewrite getBookDetails_external by exact Hx.
  rewrite (fetch_ReadAll U id data wd Hu).
  destruct (VolumeInfo.Authors info) as [|a others] eqn:Ha.
  - rewrite (translate_no_authors id _ item rest Hi Ha). split.
    + intros b wd' [=].
    + intros author others' [=].
  - rewrite (translate_first id _ item rest a others Hi Ha). fold info. split.
    + intros b wd' [= <- _]. simpl. split; [reflexivity|].
      split; [intros ->; reflexivity|].
      split; [intros Hn; rewrite (proj2 (String.eqb_neq _ _) Hn); reflexivity|].
      split; [intros ->; reflexivity|].
      split; [intros Hn; rewrite (proj2 (String.eqb_neq _ _) Hn); reflexivity|].
      intros ->. split; reflexivity.
    + intros _ _ _. eexists. reflexivity.
Qed.

Lemma C2_external_translation_witness :
  (∀ (b : BookDetails.t) (wd' : World),
     getBookDetails stubUnmarshal "42"
       (externalWorld (Response (ReadAll "book-en")))
     = (Ok (Some b), wd') →
     BookDetails.ID b = "42"
     ∧ ("BOOK" = "BOOK" → BookDetails.Type_ b = "paperback")
     ∧ ("BOOK" ≠ "BOOK" → BookDetails.Type_ b = "unknown")
     ∧ ("en" = "en" → BookDetails.Language b = "English")
     ∧ ("en" ≠ "en" → BookDetails.Language b = "unknown")
     ∧ (sampleIdentifiers
        = [IndustryIdentifier.mk "ISBN_10" "111";
           IndustryIdentifier.mk "ISBN_13" "222"] →
        BookDetails.ISBN10 b = "111" ∧ BookDetails.ISBN13 b = "222"))
  ∧ (∀ (author : string) (others : list string),
       ["William Shakespeare"] = author :: others →
       ∃ b, getBookDetails stubUnmarshal "42"
              (externalWorld (Response (ReadAll "book-en")))
            = (Ok (Some b), asked (externalWorld (Response (ReadAll "book-en"))))).
Proof.
  apply (C2_external_translation stubUnmarshal
           (externalWorld (Response (ReadAll "book-en"))) "42" "book-en"
           (sampleItem (sampleVolume ["William Shakespeare"] "BOOK" "en"
                          sampleIdentifiers)) []).
  - vm_compute. reflexivity.
  - reflexivity.
  - reflexivity.
Defined.

(** The same translation run on the samples: a book in English, and a
    magazine in French with no ISBN-10 and two ISBN-13 entries. *)
Example external_book_en :
  fst (getBookDetails stubUnmarshal "42"
         (externalWorld (Response (ReadAll "book-en"))))
  = Ok (Some (BookDetails.mk "42" "William Shakespeare" "1993" "paperback" 96
                "Courier Corporation" "English" "111" "222")).
Proof. vm_compute. reflexivity. Qed.

Example external_magazine_fr :
  fst (getBookDetails stubUnmarshal "42"
         (externalWorld (Response (ReadAll "magazine-fr"))))
  = Ok (Some (BookDetails.mk "42" "Anonyme" "1993" "unknown" 96
                "Courier Corporation" "unknown" "1234567890" "9")).
Proof. vm_compute. reflexivity. Qed.

(** C3. Whichever the data source, a record produced by the resolver has
    the requested identifier as its ID; so two runs for the same [id], under
    any decoders, environments and upstream answers, agree on the ID. *)
Theorem C3_id_is_requested_id
    (U : string → ExternalBookDetails.t → ExternalBookDetails.t * option string)
    (wd wd' : World) (id : string) (b : BookDetails.t) :
  getBookDetails U id wd = (Ok (Some b), wd') →
  BookDetails.ID b = id
  ∧ (∀ U2 (wd2 wd2' : World) (b2 : BookDetails.t),
       getBookDetails U2 id wd2 = (Ok (Some b2), wd2') →
       BookDetails.ID b2 = BookDetails.ID b).
Proof.
  assert (Hone : ∀ V (w1 w1' : World) (c : BookDetails.t),
             getBookDetails V id w1 = (Ok (Some c), w1') → BookDetails.ID c = id).
  { intros V w1 w1' c.
    destruct (decide (toggle w1 = Some "true")) as [Hx|Hm].
    - rewrite getBookDetails_external by exact Hx.
      destruct (upstream w1 fixedQuery) as [[data|err]|err] eqn:Hu.
      + rewrite (fetch_ReadAll V id data w1 Hu).
        destruct (translate id (fst (V data ExternalBookDetails.zero))) as [c'|e] eqn:Ht.
        * intros [= <- _]. exact (translate_ID _ _ _ Ht).
        * discriminate.
      + rewrite (fetch_ReadErr V id err w1 Hu). discriminate.
      + rewrite (fetch_GetErr V id err w1 Hu). discriminate.
    - rewrite getBookDetails_mock by exact Hm. intros [= <- _]. reflexivity. }
  intros Hrun. split.
  - exact (Hone U wd wd' b Hrun).
  - intros U2 wd2 wd2' b2 Hrun2.
    rewrite (Hone U wd wd' b Hrun). exact (Hone U2 wd2 wd2' b2 Hrun2).
Qed.

Lemma C3_id_is_requested_id_witness :
  BookDetails.ID
    (BookDetails.mk "42" "William Shakespeare" "1993" "paperback" 96
       "Courier Corporation" "English" "111" "222") = "42"
  ∧ (∀ U2 (wd2 wd2' : World) (b2 : BookDetails.t),
       getBookDetails U2 "42" wd2 = (Ok (Some b2), wd2') →
       BookDetails.ID b2
       = BookDetails.ID
           (BookDetails.mk "42" "William Shakespeare" "1993" "paperback" 96
              "Courier Corporation" "English" "111" "222")).
Proof.
  apply (C3_id_is_requested_id stubUnmarshal
           (externalWorld (Response (ReadAll "book-en")))
           (asked (externalWorld (Response (ReadAll "book-en")))) "42").
  vm_compute. reflexivity.
Defined.

(** C4. On the external path the error of [json.Unmarshal] is dropped:
    the outcome is that of a decoder leaving the same value and no error,
    and nothing is logged. The translation then indexes [Items[0]] and
    its [Authors[0]] unguarded: with the target left at its zero value,
    with an empty items list, or with a first item without authors, the
    resolver panics on the index and yields no record. *)
Theorem C4_decode_error_dropped_index_unguarded
    (U : string → ExternalBookDetails.t → ExternalBookDetails.t * option string)
    (wd : World) (id data : string) :
  toggle wd = Some "true" →
  upstream wd fixedQuery = Response (ReadAll data) →
  let decoded := fst (U data ExternalBookDetails.zero) in
  getBookDetails (λ d v, (fst (U d v), None)) id wd = getBookDetails U id wd
  ∧ logged (snd (getBookDetails U id wd)) = logged wd
  ∧ (∀ err : string,
       U data ExternalBookDetails.zero = (ExternalBookDetails.zero, Some err) →
       getBookDetails U id wd = (Panic (IndexOutOfRange 0 0), asked wd))
  ∧ (ExternalBookDetails.Items decoded = [] →
     getBookDetails U id wd = (Panic (IndexOutOfRange 0 0), asked wd))
  ∧ (∀ (item : Item.t) (rest : list Item.t),
       ExternalBookDetails.Items decoded = item :: rest →
       VolumeInfo.Authors (Item.VolumeInfo item) = [] →
       getBookDetails U id wd = (Panic (IndexOutOfRange 0 0), asked wd)).
Proof.
  intros Hx Hu decoded.
  rewrite !getBookDetails_external by exact Hx.
  rewrite !(fetch_ReadAll _ id data wd Hu). simpl. fold decoded.
  split; [reflexivity|]. split; [reflexivity|]. split; [|split].
  - intros err He. subst decoded. rewrite He. reflexivity.
  - intros Hi. rewrite translate_no_items by exact Hi. reflexivity.
  - intros item rest Hi Ha.
    rewrite (translate_no_authors id decoded item rest Hi Ha). reflexivity.
Qed.

Lemma C4_decode_error_dropped_index_unguarded_witness :
  let wd := externalWorld (Response (ReadAll "<html>")) in
  let decoded := fst (stubUnmarshal "<html>" ExternalBookDetails.zero) in
  getBookDetails (λ d v, (fst (stubUnmarshal d v), None)) "42" wd
  = getBookDetails stubUnmarshal "42" wd
  ∧ logged (snd (getBookDetails stubUnmarshal "42" wd)) = logged wd
  ∧ (∀ err : string,
       stubUnmarshal "<html>" ExternalBookDetails.zero
       = (ExternalBookDetails.zero, Some err) →
       getBookDetails stubUnmarshal "42" wd
       = (Panic (IndexOutOfRange 0 0), asked wd))
  ∧ (ExternalBookDetails.Items decoded = [] →
     getBookDetails stubUnmarshal "42" wd
     = (Panic (IndexOutOfRange 0 0), asked wd))
  ∧ (∀ (item : Item.t) (rest : list Item.t),
       ExternalBookDetails.Items decoded = item :: rest →
       VolumeInfo.Authors (Item.VolumeInfo item) = [] →
       getBookDetails stubUnmarshal "42" wd
       = (Panic (IndexOutOfRange 0 0), asked wd)).
Proof.
  apply (C4_decode_error_dropped_index_unguarded stubUnmarshal
           (externalWorld (Response (ReadAll "<html>"))) "42" "<html>").
  - vm_compute. reflexivity.
  - reflexivity.
Defined.

(** The three panics on the samples: a body that is not JSON, an answer
    without items, and an item without authors; the handler then writes
    no response at all. *)
Example panic_on_undecodable_body :
  stubUnmarshal "<html>" ExternalBookDetails.zero
  = (ExternalBookDetails.zero,
     Some "invalid character looking for beginning of value")
  ∧ fst (getBookDetails stubUnmarshal "42"
           (externalWorld (Response (ReadAll "<html>"))))
    = Panic (IndexOutOfRange 0 0).
Proof. split; vm_compute; reflexivity. Qed.

Example panic_on_no_items :
  fst (getBookDetails stubUnmarshal "42"
         (externalWorld (Response (ReadAll "no-items"))))
  = Panic (IndexOutOfRange 0 0).
Proof. vm_compute. reflexivity. Qed.

Example panic_on_no_authors :
  fst (getBookDetails stubUnmarshal "42"
         (externalWorld (Response (ReadAll "no-authors"))))
  = Panic (IndexOutOfRange 0 0).
Proof. vm_compute. reflexivity. Qed.

Example panic_in_handler :
  fst (GetDetails stubUnmarshal newResponse (detailsRequest "42")
         (externalWorld (Response (ReadAll "no-authors"))))
  = Panic (IndexOutOfRange 0 0).
Proof. vm_compute. reflexivity. Qed.

(** C5. In external mode, when the outbound request fails or the body of
    the response cannot be read, one line is logged, the resolver returns
    nil, and the handler still answers 200, with the JSON body [null]. *)
Theorem C5_upstream_failure_is_200_null
    (U : string → ExternalBookDetails.t → ExternalBookDetails.t * option string)
    (wd : World) (w : ResponseWriter) (r : Request) (id : string) :
  Vars r !! "id" = Some id →
  id ≠ "" →
  toggle wd = Some "true" →
  unwritten w →
  ((∃ err, upstream wd fixedQuery = GetErr err)
   ∨ (∃ err, upstream wd fixedQuery = Response (ReadErr err))) →
  ∃ (msg : string) (wd' : World) (w' : ResponseWriter),
    getBookDetails U id wd = (Ok None, wd')
    ∧ requests wd' = requests wd ++ [fixedQuery]
    ∧ logged wd' = logged wd ++ [msg]
    ∧ ((∃ err, upstream wd fixedQuery = GetErr err
               ∧ msg = "Fetching details from external service failed with error "
                       +:+ err +:+ newline)
       ∨ (∃ err, upstream wd fixedQuery = Response (ReadErr err)
                 ∧ msg = "Can't read response from external service with error "
                         +:+ err +:+ newline))
    ∧ GetDetails U w r wd = (Ok w', wd')
    ∧ statusCode w' = Some 200%Z
    ∧ sentHeader "Content-Type" w' = Some ["application/json"]
    ∧ body w' = [Doc JNull].
Proof.
  intros Hid Hne Hx Hw Hfail.
  assert (Hd : default "" (Vars r !! "id") = id) by (rewrite Hid; reflexivity).
  assert (Hres : ∃ msg,
             getBookDetails U id wd
             = (Ok None,
                mkWorld (environ wd) (upstream wd) (requests wd ++ [fixedQuery])
                  (logged wd ++ [msg]))
             ∧ ((∃ err, upstream wd fixedQuery = GetErr err
                        ∧ msg = "Fetching details from external service failed with error "
                                +:+ err +:+ newline)
                ∨ (∃ err, upstream wd fixedQuery = Response (ReadErr err)
                          ∧ msg = "Can't read response from external service with error "
                                  +:+ err +:+ newline))).
  { rewrite getBookDetails_external by exact Hx.
    destruct Hfail as [[err Hu]|[err Hu]].
    - eexists. split; [apply fetch_GetErr; exact Hu|].
      left. exists err. split; [exact Hu|reflexivity].
    - eexists. split; [apply fetch_ReadErr; exact Hu|].
      right. exists err. split; [exact Hu|reflexivity]. }
  destruct Hres as (msg & Hres & Hmsg).
  exists msg. eexists. eexists.
  split; [exact Hres|]. split; [reflexivity|]. split; [reflexivity|].
  split; [exact Hmsg|].
  split.
  { rewrite GetDetails_lookup by (rewrite Hd; exact Hne).
    rewrite Hd, Hres. reflexivity. }
  exact (respond_shape "application/json" 200 (Doc JNull) w Hw).
Qed.

Lemma C5_upstream_failure_is_200_null_witness :
  ∃ (msg : string) (wd' : World) (w' : ResponseWriter),
    getBookDetails stubUnmarshal "42" (externalWorld (GetErr "dial tcp: timeout"))
    = (Ok None, wd')
    ∧ requests wd'
      = requests (externalWorld (GetErr "dial tcp: timeout")) ++ [fixedQuery]
    ∧ logged wd' = logged (externalWorld (GetErr "dial tcp: timeout")) ++ [msg]
    ∧ ((∃ err, upstream (externalWorld (GetErr "dial tcp: timeout")) fixedQuery
               = GetErr err
               ∧ msg = "Fetching details from external service failed with error "
                       +:+ err +:+ newline)
       ∨ (∃ err, upstream (externalWorld (GetErr "dial tcp: timeout")) fixedQuery
                 = Response (ReadErr err)
                 ∧ msg = "Can't read response from external service with error "
                         +:+ err +:+ newline))
    ∧ GetDetails stubUnmarshal newResponse (detailsRequest "42")
        (externalWorld (GetErr "dial tcp: timeout"))
      = (Ok w', wd')
    ∧ statusCode w' = Some 200%Z
    ∧ sentHeader "Content-Type" w' = Some ["application/json"]
    ∧ body w' = [Doc JNull].
Proof.
  apply (C5_upstream_failure_is_200_null stubUnmarshal
           (externalWorld (GetErr "dial tcp: timeout")) newResponse
           (detailsRequest "42") "42").
  - vm_compute. reflexivity.
  - discriminate.
  - vm_compute. reflexivity.
  - split; reflexivity.
  - left. exists "dial tcp: timeout". reflexivity.
Defined.

(** The unreadable body on a sample: logged, then 200 and [null]. *)
Example unreadable_body :
  ∃ w',
    GetDetails stubUnmarshal newResponse (detailsRequest "42")
      (externalWorld (Response (ReadErr "unexpected EOF")))
    = (Ok w',
       mkWorld {[ "ENABLE_EXTERNAL_BOOK_SERVICE" := "true" ]}
         (λ _, Response (ReadErr "unexpected EOF")) [fixedQuery]
         ["Can't read response from external service with error unexpected EOF"
          +:+ newline])
    ∧ statusCode w' = Some 200%Z
    ∧ body w' = [Doc JNull].
Proof. eexists. split; [reflexivity|]. split; vm_compute; reflexivity. Qed.

(** C6. [GET /health] answers 200 with [Content-Type: application/json],
    whatever the request; the body it writes is the literal with single
    quotes, which is not a well-formed JSON text, while the report with
    the member name and the status in double quotes is. *)
Theorem C6_health_body_malformed (r : Request) (wd : World) :
  ∃ w',
    Health newResponse r wd = (Ok w', wd)
    ∧ statusCode w' = Some 200%Z
    ∧ sentHeader "Content-Type" w' = Some ["application/json"]
    ∧ body w' = [Text "{'status':'Details is healthy'}"]
    ∧ JsonText.wellFormed "{'status':'Details is healthy'}" = false
    ∧ JsonText.wellFormed healthyText = true.
Proof.
  eexists. split; [reflexivity|].
  destruct (respond_shape "application/json" 200
              (Text "{'status':'Details is healthy'}") newResponse)
    as (Hc & Hh & Hb); [split; reflexivity|].
  repeat split; assumption || reflexivity.
Qed.

(** ** The same answer under another identifier *)

Lemma translate_relabel (id1 id2 : string) (ext : ExternalBookDetails.t) :
  translate id2 ext
  = match translate id1 ext with
    | Ok b =>
        Ok (BookDetails.mk id2 (BookDetails.Author b) (BookDetails.Year b)
              (BookDetails.Type_ b) (BookDetails.Pages b)
              (BookDetails.Publisher b) (BookDetails.Language b)
              (BookDetails.ISBN10 b) (BookDetails.ISBN13 b))
    | Panic e => Panic e
    end.
Proof.
  destruct (ExternalBookDetails.Items ext) as [|item rest] eqn:Hi.
  - rewrite !translate_no_items by exact Hi. reflexivity.
  - destruct (VolumeInfo.Authors (Item.VolumeInfo item)) as [|a others] eqn:Ha.
    + rewrite !(translate_no_authors _ ext item rest Hi Ha). reflexivity.
    + rewrite !(translate_first _ ext item rest a others Hi Ha). reflexivity.
Qed.

(** C7. In external mode the one outbound request is the query for the
    ISBN 0486424618, whatever the [id]; so two identifiers resolved against
    the same upstream end alike (both nil, both the same panic, or two
    records), leave the same trace, and two records differ at most in
    their ID. *)
Theorem C7_fixed_isbn_query
    (U : string → ExternalBookDetails.t → ExternalBookDetails.t * option string)
    (wd : World) (id1 id2 : string) :
  toggle wd = Some "true" →
  let run1 := getBookDetails U id1 wd in
  let run2 := getBookDetails U id2 wd in
  requests (snd run1)
  = requests wd
    ++ ["https://www.googleapis.com/books/v1/volumes?q=isbn:0486424618"]
  ∧ snd run2 = snd run1
  ∧ match fst run1, fst run2 with
    | Ok (Some b1), Ok (Some b2) =>
        BookDetails.ID b1 = id1
        ∧ BookDetails.ID b2 = id2
        ∧ BookDetails.Author b1 = BookDetails.Author b2
        ∧ BookDetails.Year b1 = BookDetails.Year b2
        ∧ BookDetails.Type_ b1 = BookDetails.Type_ b2
        ∧ BookDetails.Pages b1 = BookDetails.Pages b2
        ∧ BookDetails.Publisher b1 = BookDetails.Publisher b2
        ∧ BookDetails.Language b1 = BookDetails.Language b2
        ∧ BookDetails.ISBN10 b1 = BookDetails.ISBN10 b2
        ∧ BookDetails.ISBN13 b1 = BookDetails.ISBN13 b2
    | Ok None, Ok None => True
    | Panic e1, Panic e2 => e1 = e2
    | _, _ => False
    end.
Proof.
  intros Hx run1 run2. subst run1 run2.
  rewrite !getBookDetails_external by exact Hx.
  destruct (upstream wd fixedQuery) as [[data|err]|err] eqn:Hu.
  - rewrite !(fetch_ReadAll U _ data wd Hu). simpl.
    split; [reflexivity|]. split; [reflexivity|].
    rewrite (translate_relabel id1 id2).
    destruct (translate id1 (fst (U data ExternalBookDetails.zero))) as [b|e] eqn:Ht.
    + simpl. rewrite (translate_ID _ _ _ Ht). repeat split.
    + reflexivity.
  - rewrite !(fetch_ReadErr U _ err wd Hu). simpl. repeat split.
  - rewrite !(fetch_GetErr U _ err wd Hu). simpl. repeat split.
Qed.

Lemma C7_fixed_isbn_query_witness :
  let wd := externalWorld (Response (ReadAll "book-en")) in
  let run1 := getBookDetails stubUnmarshal "42" wd in
  let run2 := getBookDetails stubUnmarshal "0486424618" wd in
  requests (snd run1)
  = requests wd
    ++ ["https://www.googleapis.com/books/v1/volumes?q=isbn:0486424618"]
  ∧ snd run2 = snd run1
  ∧ match fst run1, fst run2 with
    | Ok (Some b1), Ok (Some b2) =>
        BookDetails.ID b1 = "42"
        ∧ BookDetails.ID b2 = "0486424618"
        ∧ BookDetails.Author b1 = BookDetails.Author b2
        ∧ BookDetails.Year b1 = BookDetails.Year b2
        ∧ BookDetails.Type_ b1 = BookDetails.Type_ b2
        ∧ BookDetails.Pages b1 = BookDetails.Pages b2
        ∧ BookDetails.Publisher b1 = BookDetails.Publisher b2
        ∧ BookDetails.Language b1 = BookDetails.Language b2
        ∧ BookDetails.ISBN10 b1 = BookDetails.ISBN10 b2
        ∧ BookDetails.ISBN13 b1 = BookDetails.ISBN13 b2
    | Ok None, Ok None => True
    | Panic e1, Panic e2 => e1 = e2
    | _, _ => False
    end.
Proof.
  apply (C7_fixed_isbn_query stubUnmarshal
           (externalWorld (Response (ReadAll "book-en"))) "42" "0486424618").
  vm_compute. reflexivity.
Defined.

(** ** The scan of the industry identifiers *)

Lemma rangeIdentifiers_first (kind : string)
    (pre : list IndustryIdentifier.t) (e : IndustryIdentifier.t)
    (post : list IndustryIdentifier.t) :
  IndustryIdentifier.Type_ e = kind →
  (∀ x, x ∈ pre → IndustryIdentifier.Type_ x ≠ kind) →
  rangeIdentifiers kind (pre ++ e :: post) = Some (IndustryIdentifier.Identifier e).
Proof.
  intros He. induction pre as [|p pre IH]; intros Hpre; simpl.
  - rewrite (proj2 (String.eqb_eq _ _) He). reflexivity.
  - rewrite (proj2 (String.eqb_neq _ _) (Hpre p (proj2 (elem_of_cons _ _ _) (or_introl eq_refl)))).
    apply IH. intros x Hx. apply Hpre. apply elem_of_cons. right. exact Hx.
Qed.

Lemma rangeIdentifiers_none (kind : string) (ids : list IndustryIdentifier.t) :
  (∀ x, x ∈ ids → IndustryIdentifier.Type_ x ≠ kind) →
  rangeIdentifiers kind ids = None.
Proof.
  induction ids as [|p ids IH]; intros Hn; simpl.
  - reflexivity.
  - rewrite (proj2 (String.eqb_neq _ _) (Hn p (proj2 (elem_of_cons _ _ _) (or_introl eq_refl)))).
    apply IH. intros x Hx. apply Hn. apply elem_of_cons. right. exact Hx.
Qed.

(** C8. [getISBN], for any kind and so for ["ISBN_10"] as for ["ISBN_13"],
    returns the identifier of the first entry of the first item's industry
    identifiers whose type is the kind asked for, and ["1234567890"] when
    no entry has that type, the empty list included. *)
Theorem C8_getISBN_first_match_or_default
    (kind : string) (ext : ExternalBookDetails.t)
    (item : Item.t) (rest : list Item.t) :
  ExternalBookDetails.Items ext = item :: rest →
  let ids := VolumeInfo.IndustryIdentifiers (Item.VolumeInfo item) in
  (∀ (pre : list IndustryIdentifier.t) (e : IndustryIdentifier.t)
     (post : list IndustryIdentifier.t),
     ids = pre ++ e :: post →
     IndustryIdentifier.Type_ e = kind →
     (∀ x, x ∈ pre → IndustryIdentifier.Type_ x ≠ kind) →
     getISBN kind ext = Ok (IndustryIdentifier.Identifier e))
  ∧ ((∀ x, x ∈ ids → IndustryIdentifier.Type_ x ≠ kind) →
     getISBN kind ext = Ok "1234567890")
  ∧ (ids = [] → getISBN kind ext = Ok "1234567890").
Proof.
  intros Hi ids. unfold getISBN. rewrite Hi. simpl. fold ids.
  split; [|split].
  - intros pre e post Hids He Hpre.
    rewrite Hids, (rangeIdentifiers_first kind pre e post He Hpre). reflexivity.
  - intros Hn. rewrite (rangeIdentifiers_none kind ids Hn). reflexivity.
  - intros ->. reflexivity.
Qed.

Lemma C8_getISBN_first_match_or_default_witness :
  let ext :=
    sampleAnswer
      (sampleVolume ["Anonyme"] "MAGAZINE" "fr"
         [IndustryIdentifier.mk "OTHER" "x"; IndustryIdentifier.mk "ISBN_13" "9";
          IndustryIdentifier.mk "ISBN_13" "8"]) in
  let ids :=
    [IndustryIdentifier.mk "OTHER" "x"; IndustryIdentifier.mk "ISBN_13" "9";
     IndustryIdentifier.mk "ISBN_13" "8"] in
  (∀ (pre : list IndustryIdentifier.t) (e : IndustryIdentifier.t)
     (post : list IndustryIdentifier.t),
     ids = pre ++ e :: post →
     IndustryIdentifier.Type_ e = "ISBN_13" →
     (∀ x, x ∈ pre → IndustryIdentifier.Type_ x ≠ "ISBN_13") →
     getISBN "ISBN_13" ext = Ok (IndustryIdentifier.Identifier e))
  ∧ ((∀ x, x ∈ ids → IndustryIdentifier.Type_ x ≠ "ISBN_13") →
     getISBN "ISBN_13" ext = Ok "1234567890")
  ∧ (ids = [] → getISBN "ISBN_13" ext = Ok "1234567890").
Proof.
  apply (C8_getISBN_first_match_or_default "ISBN_13"
           (sampleAnswer
              (sampleVolume ["Anonyme"] "MAGAZINE" "fr"
                 [IndustryIdentifier.mk "OTHER" "x";
                  IndustryIdentifier.mk "ISBN_13" "9";
                  IndustryIdentifier.mk "ISBN_13" "8"]))
           (sampleItem
              (sampleVolume ["Anonyme"] "MAGAZINE" "fr"
                 [IndustryIdentifier.mk "OTHER" "x";
                  IndustryIdentifier.mk "ISBN_13" "9";
                  IndustryIdentifier.mk "ISBN_13" "8"])) []).
  reflexivity.
Defined.

(** The scan on the samples: the first of two matches wins, and a kind
    that is absent, or an empty list, gives the default. *)
Example getISBN_first_of_two :
  getISBN "ISBN_13"
    (sampleAnswer
       (sampleVolume ["Anonyme"] "MAGAZINE" "fr"
          [IndustryIdentifier.mk "OTHER" "x"; IndustryIdentifier.mk "ISBN_13" "9";
           IndustryIdentifier.mk "ISBN_13" "8"]))
  = Ok "9".
Proof. reflexivity. Qed.

Example getISBN_absent_kind :
  getISBN "ISBN_10"
    (sampleAnswer
       (sampleVolume ["Anonyme"] "MAGAZINE" "fr"
          [IndustryIdentifier.mk "OTHER" "x"; IndustryIdentifier.mk "ISBN_13" "9";
           IndustryIdentifier.mk "ISBN_13" "8"]))
  = Ok "1234567890".
Proof. reflexivity. Qed.

Example getISBN_empty_list :
  getISBN "ISBN_10" (sampleAnswer (sampleVolume [] "BOOK" "en" [])) = Ok "1234567890".
Proof. reflexivity. Qed.

(** * Further properties of the resolver and the handler *)

(** ** What the external path copies *)

(** X1. In external mode, when the first item of the answer lists an
    author, the record resolved takes its author from the head of that
    list and its year, page count and publisher unchanged from the item's
    published date, page count and publisher. *)
Theorem X1_external_copies_first_item
    (U : string → ExternalBookDetails.t → ExternalBookDetails.t * option string)
    (wd : World) (id data : string) (item : Item.t) (rest : list Item.t)
    (author : string) (others : list string) :
  toggle wd = Some "true" →
  upstream wd fixedQuery = Response (ReadAll data) →
  ExternalBookDetails.Items (fst (U data ExternalBookDetails.zero)) = item :: rest →
  VolumeInfo.Authors (Item.VolumeInfo item) = author :: others →
  ∃ b,
    getBookDetails U id wd = (Ok (Some b), asked wd)
    ∧ BookDetails.Author b = author
    ∧ BookDetails.Year b = VolumeInfo.PublishedDate (Item.VolumeInfo item)
    ∧ BookDetails.Pages b = VolumeInfo.PageCount (Item.VolumeInfo item)
    ∧ BookDetails.Publisher b = VolumeInfo.Publisher (Item.VolumeInfo item).
Proof.
  intros Hx Hu Hi Ha.
  rewrite getBookDetails_external by exact Hx.
  rewrite (fetch_ReadAll U id data wd Hu).
  rewrite (translate_first id _ item rest author others Hi Ha).
  eexists. split; [reflexivity|]. simpl. repeat split.
Qed.

Lemma X1_external_copies_first_item_witness :
  ∃ b,
    getBookDetails stubUnmarshal "42"
      (externalWorld (Response (ReadAll "magazine-fr")))
    = (Ok (Some b), asked (externalWorld (Response (ReadAll "magazine-fr"))))
    ∧ BookDetails.Author b = "Anonyme"
    ∧ BookDetails.Year b = "1993"
    ∧ BookDetails.Pages b = 96%Z
    ∧ BookDetails.Publisher b = "Courier Corporation".
Proof.
  apply (X1_external_copies_first_item stubUnmarshal
           (externalWorld (Response (ReadAll "magazine-fr"))) "42" "magazine-fr"
           (sampleItem
              (sampleVolume ["Anonyme"] "MAGAZINE" "fr"
                 [IndustryIdentifier.mk "OTHER" "x";
                  IndustryIdentifier.mk "ISBN_13" "9";
                  IndustryIdentifier.mk "ISBN_13" "8"])) [] "Anonyme" []).
  - vm_compute. reflexivity.
  - reflexivity.
  - reflexivity.
  - reflexivity.
Defined.

(** ** The three outcomes of the resolver *)

(** The translation panics exactly on an answer without items or whose
    first item has no authors. *)
Lemma translate_panics_iff (id : string) (ext : ExternalBookDetails.t) :
  (∃ e, translate id ext = Panic e)
  ↔ (ExternalBookDetails.Items ext = []
     ∨ ∃ item rest, ExternalBookDetails.Items ext = item :: rest
                    ∧ VolumeInfo.Authors (Item.VolumeInfo item) = []).
Proof.
  destruct (ExternalBookDetails.Items ext) as [|item rest] eqn:Hi.
  - rewrite translate_no_items by exact Hi. split; eauto.
  - destruct (VolumeInfo.Authors (Item.VolumeInfo item)) as [|a others] eqn:Ha.
    + rewrite (translate_no_authors id ext item rest Hi Ha). split; eauto.
    + rewrite (translate_first id ext item rest a others Hi Ha). split.
      * intros [e [=]].
      * intros [[=]|(item' & rest' & [= <- <-] & Ha')].
        rewrite Ha in Ha'. discriminate.
Qed.

Lemma getBookDetails_panics_iff
    (U : string → ExternalBookDetails.t → ExternalBookDetails.t * option string)
    (wd : World) (id : string) :
  ((∃ e, fst (getBookDetails U id wd) = Panic e)
   ↔ toggle wd = Some "true"
     ∧ ∃ data,
         upstream wd fixedQuery = Response (ReadAll data)
         ∧ (ExternalBookDetails.Items (fst (U data ExternalBookDetails.zero)) = []
            ∨ ∃ item rest,
                ExternalBookDetails.Items (fst (U data ExternalBookDetails.zero))
                = item :: rest
                ∧ VolumeInfo.Authors (Item.VolumeInfo item) = []))
  ∧ (∀ e, fst (getBookDetails U id wd) = Panic e → e = IndexOutOfRange 0 0).
Proof.
  destruct (decide (toggle wd = Some "true")) as [Hx|Hm].
  - rewrite getBookDetails_external by exact Hx.
    destruct (upstream wd fixedQuery) as [[data|err]|err] eqn:Hu.
    + rewrite (fetch_ReadAll U id data wd Hu). simpl.
      pose proof (translate_panics_iff id (fst (U data ExternalBookDetails.zero)))
        as Hiff.
      destruct (translate id (fst (U data ExternalBookDetails.zero)))
        as [b|e0] eqn:Ht.
      * split.
        -- split.
           ++ intros [e [=]].
           ++ intros (_ & data' & [= <-] & Hbad).
              apply Hiff in Hbad. destruct Hbad as [e [=]].
        -- intros e [=].
      * split.
        -- split.
           ++ intros _. split; [exact Hx|]. exists data. split; [reflexivity|].
              apply Hiff. eauto.
           ++ intros _. eauto.
        -- intros e [= <-].
           assert (Hbad : ∃ e', @Panic BookDetails.t e0 = Panic e') by eauto.
           apply Hiff in Hbad.
           destruct Hbad as [Hi|(item & rest & Hi & Ha)].
           ++ rewrite translate_no_items in Ht by exact Hi. congruence.
           ++ rewrite (translate_no_authors id _ item rest Hi Ha) in Ht. congruence.
    + rewrite (fetch_ReadErr U id err wd Hu). simpl. split.
      * split; [intros [e [=]]|intros (_ & data & [=] & _)].
      * intros e [=].
    + rewrite (fetch_GetErr U id err wd Hu). simpl. split.
      * split; [intros [e [=]]|intros (_ & data & [=] & _)].
      * intros e [=].
  - rewrite getBookDetails_mock by exact Hm. simpl. split.
    + split; [intros [e [=]]|intros [Hx _]; contradiction].
    + intros e [=].
Qed.

(** X2. The resolver panics in exactly one situation: external mode, a
    body that could be read, and a decoded answer that has no items or
    whose first item has no authors. The panic is always the index 0 out
    of range of an empty slice. *)
Theorem X2_resolver_panics_iff
    (U : string → ExternalBookDetails.t → ExternalBookDetails.t * option string)
    (wd : World) (id : string) :
  ((∃ e, fst (getBookDetails U id wd) = Panic e)
   ↔ toggle wd = Some "true"
     ∧ ∃ data,
         upstream wd fixedQuery = Response (ReadAll data)
         ∧ (ExternalBookDetails.Items (fst (U data ExternalBookDetails.zero)) = []
            ∨ ∃ item rest,
                ExternalBookDetails.Items (fst (U data ExternalBookDetails.zero))
                = item :: rest
                ∧ VolumeInfo.Authors (Item.VolumeInfo item) = []))
  ∧ (∀ e, fst (getBookDetails U id wd) = Panic e → e = IndexOutOfRange 0 0).
Proof. exact (getBookDetails_panics_iff U wd id). Qed.

(** X3. The resolver returns nil in exactly one situation: external mode
    and an outbound request that failed or a body that could not be
    read. *)
Theorem X3_resolver_nil_iff
    (U : string → ExternalBookDetails.t → ExternalBookDetails.t * option string)
    (wd : World) (id : string) :
  fst (getBookDetails U id wd) = Ok None
  ↔ toggle wd = Some "true"
    ∧ ((∃ err, upstream wd fixedQuery = GetErr err)
       ∨ (∃ err, upstream wd fixedQuery = Response (ReadErr err))).
Proof.
  destruct (decide (toggle wd = Some "true")) as [Hx|Hm].
  - rewrite getBookDetails_external by exact Hx.
    destruct (upstream wd fixedQuery) as [[data|err]|err] eqn:Hu.
    + rewrite (fetch_ReadAll U id data wd Hu). simpl.
      destruct (translate id (fst (U data ExternalBookDetails.zero))); split.
      * intros [=].
      * intros (_ & [[err [=]]|[err [=]]]).
      * intros [=].
      * intros (_ & [[err [=]]|[err [=]]]).
    + rewrite (fetch_ReadErr U id err wd Hu). simpl. split; eauto.
    + rewrite (fetch_GetErr U id err wd Hu). simpl. split; eauto.
  - rewrite getBookDetails_mock by exact Hm. simpl. split.
    + intros [=].
    + intros [Hx _]. contradiction.
Qed.

(** X4. Whatever the mode, a record returned by the resolver has type
    ["paperback"] or ["unknown"] and language ["English"] or ["unknown"]:
    the print type and language code of the upstream never reach the
    client as they are. *)
Theorem X4_type_and_language_are_fixed_words
    (U : string → ExternalBookDetails.t → ExternalBookDetails.t * option string)
    (wd wd' : World) (id : string) (b : BookDetails.t) :
  getBookDetails U id wd = (Ok (Some b), wd') →
  (BookDetails.Type_ b = "paperback" ∨ BookDetails.Type_ b = "unknown")
  ∧ (BookDetails.Language b = "English" ∨ BookDetails.Language b = "unknown").
Proof.
  destruct (decide (toggle wd = Some "true")) as [Hx|Hm].
  - rewrite getBookDetails_external by exact Hx.
    destruct (upstream wd fixedQuery) as [[data|err]|err] eqn:Hu.
    + rewrite (fetch_ReadAll U id data wd Hu).
      destruct (ExternalBookDetails.Items (fst (U data ExternalBookDetails.zero)))
        as [|item rest] eqn:Hi.
      { rewrite translate_no_items by exact Hi. discriminate. }
      destruct (VolumeInfo.Authors (Item.VolumeInfo item)) as [|a others] eqn:Ha.
      { rewrite (translate_no_authors id _ item rest Hi Ha). discriminate. }
      rewrite (translate_first id _ item rest a others Hi Ha).
      intros [= <- _]. simpl.
      destruct (String.eqb (VolumeInfo.PrintType (Item.VolumeInfo item)) "BOOK");
        destruct (String.eqb (VolumeInfo.Language (Item.VolumeInfo item)) "en");
        auto.
    + rewrite (fetch_ReadErr U id err wd Hu). discriminate.
    + rewrite (fetch_GetErr U id err wd Hu). discriminate.
  - rewrite getBookDetails_mock by exact Hm. intros [= <- _]. simpl. auto.
Qed.

Lemma X4_type_and_language_are_fixed_words_witness :
  (BookDetails.Type_
     (BookDetails.mk "42" "Anonyme" "1993" "unknown" 96 "Courier Corporation"
        "unknown" "1234567890" "9") = "paperback"
   ∨ BookDetails.Type_
       (BookDetails.mk "42" "Anonyme" "1993" "unknown" 96 "Courier Corporation"
          "unknown" "1234567890" "9") = "unknown")
  ∧ (BookDetails.Language
       (BookDetails.mk "42" "Anonyme" "1993" "unknown" 96 "Courier Corporation"
          "unknown" "1234567890" "9") = "English"
     ∨ BookDetails.Language
         (BookDetails.mk "42" "Anonyme" "1993" "unknown" 96 "Courier Corporation"
            "unknown" "1234567890" "9") = "unknown").
Proof.
  apply (X4_type_and_language_are_fixed_words stubUnmarshal
           (externalWorld (Response (ReadAll "magazine-fr")))
           (asked (externalWorld (Response (ReadAll "magazine-fr")))) "42").
  vm_compute. reflexivity.
Defined.

(** ** What the resolver reads *)

(** X5. Of a decoded answer the external path reads only the first item,
    and of it only the head of the authors, the published date, the print
    type, the page count, the publisher, the language and the industry
    identifiers: two answers that agree on these resolve alike, whatever
    their other items and fields. *)
Theorem X5_only_first_item_is_read
    (U1 U2 : string → ExternalBookDetails.t → ExternalBookDetails.t * option string)
    (wd : World) (id data : string)
    (item1 item2 : Item.t) (rest1 rest2 : list Item.t) :
  toggle wd = Some "true" →
  upstream wd fixedQuery = Response (ReadAll data) →
  ExternalBookDetails.Items (fst (U1 data ExternalBookDetails.zero)) = item1 :: rest1 →
  ExternalBookDetails.Items (fst (U2 data ExternalBookDetails.zero)) = item2 :: rest2 →
  let v1 := Item.VolumeInfo item1 in
  let v2 := Item.VolumeInfo item2 in
  head (VolumeInfo.Authors v1) = head (VolumeInfo.Authors v2) →
  VolumeInfo.PublishedDate v1 = VolumeInfo.PublishedDate v2 →
  VolumeInfo.PrintType v1 = VolumeInfo.PrintType v2 →
  VolumeInfo.PageCount v1 = VolumeInfo.PageCount v2 →
  VolumeInfo.Publisher v1 = VolumeInfo.Publisher v2 →
  VolumeInfo.Language v1 = VolumeInfo.Language v2 →
  VolumeInfo.IndustryIdentifiers v1 = VolumeInfo.IndustryIdentifiers v2 →
  getBookDetails U1 id wd = getBookDetails U2 id wd.
Proof.
  intros Hx Hu Hi1 Hi2 v1 v2 Ha Hd Ht Hp Hpub Hl Hids.
  rewrite !getBookDetails_external by exact Hx.
  rewrite !(fetch_ReadAll _ id data wd Hu).
  destruct (VolumeInfo.Authors v1) as [|a1 o1] eqn:Ha1;
    destruct (VolumeInfo.Authors v2) as [|a2 o2] eqn:Ha2;
    simpl in Ha; try discriminate.
  - rewrite (translate_no_authors id _ item1 rest1 Hi1 Ha1).
    rewrite (translate_no_authors id _ item2 rest2 Hi2 Ha2). reflexivity.
  - injection Ha as <-.
    rewrite (translate_first id _ item1 rest1 a1 o1 Hi1 Ha1).
    rewrite (translate_first id _ item2 rest2 a1 o2 Hi2 Ha2).
    fold v1 v2. rewrite Hd, Ht, Hp, Hpub, Hl, Hids. reflexivity.
Qed.

Lemma getBookDetails_reads
    (U : string → ExternalBookDetails.t → ExternalBookDetails.t * option string)
    (wd1 wd2 : World) (id : string) :
  toggle wd1 = toggle wd2 →
  (toggle wd1 = Some "true" →
   upstream wd1 fixedQuery = upstream wd2 fixedQuery) →
  fst (getBookDetails U id wd1) = fst (getBookDetails U id wd2).
Proof.
  intros Ht Hup.
  destruct (decide (toggle wd1 = Some "true")) as [Hx|Hm].
  - assert (Hx2 : toggle wd2 = Some "true") by (rewrite <- Ht; exact Hx).
    specialize (Hup Hx).
    rewrite !getBookDetails_external by assumption.
    destruct (upstream wd1 fixedQuery) as [[data|err]|err] eqn:Hu1;
      symmetry in Hup.
    + rewrite (fetch_ReadAll U id data wd1 Hu1), (fetch_ReadAll U id data wd2 Hup).
      reflexivity.
    + rewrite (fetch_ReadErr U id err wd1 Hu1), (fetch_ReadErr U id err wd2 Hup).
      reflexivity.
    + rewrite (fetch_GetErr U id err wd1 Hu1), (fetch_GetErr U id err wd2 Hup).
      reflexivity.
  - assert (Hm2 : toggle wd2 ≠ Some "true") by (rewrite <- Ht; exact Hm).
    rewrite !getBookDetails_mock by assumption. reflexivity.
Qed.

(** X6. The resolver reads the environment at the toggle only and, in
    external mode, the upstream at the fixed query only: two worlds that
    agree there give the same result for every [id]. *)
Theorem X6_resolver_reads_toggle_and_fixed_query
    (U : string → ExternalBookDetails.t → ExternalBookDetails.t * option string)
    (wd1 wd2 : World) (id : string) :
  toggle wd1 = toggle wd2 →
  (toggle wd1 = Some "true" →
   upstream wd1 fixedQuery = upstream wd2 fixedQuery) →
  fst (getBookDetails U id wd1) = fst (getBookDetails U id wd2).
Proof. exact (getBookDetails_reads U wd1 wd2 id). Qed.

Lemma X5_only_first_item_is_read_witness :
  getBookDetails stubUnmarshal "42" (externalWorld (Response (ReadAll "book-en")))
  = getBookDetails crowdedUnmarshal "42"
      (externalWorld (Response (ReadAll "book-en"))).
Proof.
  apply (X5_only_first_item_is_read stubUnmarshal crowdedUnmarshal
           (externalWorld (Response (ReadAll "book-en"))) "42" "book-en"
           (sampleItem (sampleVolume ["William Shakespeare"] "BOOK" "en"
                          sampleIdentifiers))
           (Item.mk "k" "another-id" "e" "link"
              (VolumeInfo.mk "Another title"
                 ["William Shakespeare"; "Second Author"]
                 "Courier Corporation" "1993" "a description" sampleIdentifiers
                 (ReadingModes.mk true true) 96 "BOOK" [] "MATURE" true "1"
                 (PanelizationSummary.mk true true) (ImageLinks.mk "s" "t") "en"
                 "p" "i" "c")
              (SaleInfo.mk "FR" "FOR_SALE" true)
              (AccessInfo.mk "FR" "ALL_PAGES" false true "DENIED" true true "w"
                 "FULL" true)
              (SearchInfo.mk "snippet"))
           [] [sampleItem (sampleVolume [] "MAGAZINE" "fr" [])]).
  - vm_compute. reflexivity.
  - reflexivity.
  - reflexivity.
  - reflexivity.
  - reflexivity.
  - reflexivity.
  - reflexivity.
  - reflexivity.
  - reflexivity.
  - reflexivity.
  - reflexivity.
Defined.

Lemma X6_resolver_reads_toggle_and_fixed_query_witness :
  fst (getBookDetails stubUnmarshal "42"
         (externalWorld (Response (ReadAll "book-en"))))
  = fst (getBookDetails stubUnmarshal "42" busyWorld).
Proof.
  apply (X6_resolver_reads_toggle_and_fixed_query stubUnmarshal
           (externalWorld (Response (ReadAll "book-en"))) busyWorld "42").
  - vm_compute. reflexivity.
  - intros _. vm_compute. reflexivity.
Defined.

(** ** The handler over all modes *)

(** The world the resolver leaves behind. *)
Lemma getBookDetails_world
    (U : string → ExternalBookDetails.t → ExternalBookDetails.t * option string)
    (wd : World) (id : string) :
  let wd' := snd (getBookDetails U id wd) in
  environ wd' = environ wd
  ∧ upstream wd' = upstream wd
  ∧ (toggle wd = Some "true" → requests wd' = requests wd ++ [fixedQuery])
  ∧ (toggle wd ≠ Some "true" → wd' = wd)
  ∧ (logged wd' = logged wd ∨ ∃ msg, logged wd' = logged wd ++ [msg]).
Proof.
  destruct (decide (toggle wd = Some "true")) as [Hx|Hm].
  - rewrite getBookDetails_external by exact Hx.
    destruct (upstream wd fixedQuery) as [[data|err]|err] eqn:Hu.
    + rewrite (fetch_ReadAll U id data wd Hu). simpl.
      repeat split; auto. intros Hm. contradiction.
    + rewrite (fetch_ReadErr U id err wd Hu). simpl.
      repeat split; eauto. intros Hm. contradiction.
    + rewrite (fetch_GetErr U id err wd Hu). simpl.
      repeat split; eauto. intros Hm. contradiction.
  - rewrite getBookDetails_mock by exact Hm. simpl.
    repeat split; auto. intros Hx. contradiction.
Qed.

(** A record of the resolver: its ID, type and language. *)
Lemma getBookDetails_record
    (U : string → ExternalBookDetails.t → ExternalBookDetails.t * option string)
    (wd wd' : World) (id : string) (b : BookDetails.t) :
  getBookDetails U id wd = (Ok (Some b), wd') →
  BookDetails.ID b = id
  ∧ (BookDetails.Type_ b = "paperback" ∨ BookDetails.Type_ b = "unknown")
  ∧ (BookDetails.Language b = "English" ∨ BookDetails.Language b = "unknown").
Proof.
  destruct (decide (toggle wd = Some "true")) as [Hx|Hm].
  - rewrite getBookDetails_external by exact Hx.
    destruct (upstream wd fixedQuery) as [[data|err]|err] eqn:Hu.
    + rewrite (fetch_ReadAll U id data wd Hu).
      destruct (ExternalBookDetails.Items (fst (U data ExternalBookDetails.zero)))
        as [|item rest] eqn:Hi.
      { rewrite translate_no_items by exact Hi. discriminate. }
      destruct (VolumeInfo.Authors (Item.VolumeInfo item)) as [|a others] eqn:Ha.
      { rewrite (translate_no_authors id _ item rest Hi Ha). discriminate. }
      rewrite (translate_first id _ item rest a others Hi Ha).
      intros [= <- _]. simpl.
      destruct (String.eqb (VolumeInfo.PrintType (Item.VolumeInfo item)) "BOOK");
        destruct (String.eqb (VolumeInfo.Language (Item.VolumeInfo item)) "en");
        repeat split; auto.
    + rewrite (fetch_ReadErr U id err wd Hu). discriminate.
    + rewrite (fetch_GetErr U id err wd Hu). discriminate.
  - rewrite getBookDetails_mock by exact Hm. intros [= <- _]. simpl.
    repeat split; auto.
Qed.

Lemma app_singleton_neq {A : Type} (l : list A) (x : A) : l ++ [x] ≠ l.
Proof.
  intros He. apply (f_equal length) in He. rewrite length_app in He.
  simpl in He. lia.
Qed.

(** X7. On a fresh response the details handler, when it completes,
    answers 400 with a plain-text content type exactly when the [id] is
    empty or missing, and 200 with the JSON content type otherwise, in
    every mode; the body is written in one piece. *)
Theorem X7_status_is_400_or_200
    (U : string → ExternalBookDetails.t → ExternalBookDetails.t * option string)
    (wd wd' : World) (w w' : ResponseWriter) (r : Request) :
  unwritten w →
  GetDetails U w r wd = (Ok w', wd') →
  (default "" (Vars r !! "id") = "" →
   statusCode w' = Some 400%Z
   ∧ sentHeader "Content-Type" w' = Some ["text/plain; charset=utf-8"])
  ∧ (default "" (Vars r !! "id") ≠ "" →
     statusCode w' = Some 200%Z
     ∧ sentHeader "Content-Type" w' = Some ["application/json"])
  ∧ length (body w') = 1.
Proof.
  intros Hw Hrun.
  destruct (String.eqb_spec (default "" (Vars r !! "id")) "") as [He|Hne].
  - rewrite GetDetails_empty in Hrun by exact He. injection Hrun as <- _.
    destruct (http_Error_shape "please provide product id" 400 w Hw)
      as (Hc & Hh & _ & Hb).
    split; [auto|]. split; [intros Hn; contradiction|].
    rewrite Hb. reflexivity.
  - rewrite GetDetails_lookup in Hrun by exact Hne.
    destruct (getBookDetails U (default "" (Vars r !! "id")) wd) as [[p|e] wd1];
      [|discriminate].
    injection Hrun as <- _.
    destruct (respond_shape "application/json" 200
                (Doc (marshalBookDetails p)) w Hw) as (Hc & Hh & Hb).
    split; [intros He; contradiction|]. split; [auto|].
    unfold Encode. rewrite Hb. reflexivity.
Qed.

Lemma X7_status_is_400_or_200_witness :
  ∃ w',
    (default "" (Vars (detailsRequest "42") !! "id") = "" →
     statusCode w' = Some 400%Z
     ∧ sentHeader "Content-Type" w' = Some ["text/plain; charset=utf-8"])
    ∧ (default "" (Vars (detailsRequest "42") !! "id") ≠ "" →
       statusCode w' = Some 200%Z
       ∧ sentHeader "Content-Type" w' = Some ["application/json"])
    ∧ length (body w') = 1.
Proof.
  eexists.
  apply (X7_status_is_400_or_200 stubUnmarshal
           (externalWorld (Response (ReadAll "book-en")))
           (asked (externalWorld (Response (ReadAll "book-en"))))
           newResponse _ (detailsRequest "42")).
  - split; reflexivity.
  - vm_compute. reflexivity.
Defined.

(** X8. The details handler never changes the environment or the
    upstream. It sends one request, the fixed query, when the [id] is not
    empty and the mode is external, and otherwise leaves the world as it
    found it; it logs at most one line. *)
Theorem X8_handler_trace
    (U : string → ExternalBookDetails.t → ExternalBookDetails.t * option string)
    (wd : World) (w : ResponseWriter) (r : Request) :
  let wd' := snd (GetDetails U w r wd) in
  let id := default "" (Vars r !! "id") in
  environ wd' = environ wd
  ∧ upstream wd' = upstream wd
  ∧ (id ≠ "" ∧ toggle wd = Some "true" ↔
     requests wd' = requests wd ++ [fixedQuery])
  ∧ (id = "" ∨ toggle wd ≠ Some "true" → wd' = wd)
  ∧ (logged wd' = logged wd ∨ ∃ msg, logged wd' = logged wd ++ [msg]).
Proof.
  intros wd' id. subst wd' id.
  assert (Hgrow : ∀ wd1 : World,
             (toggle wd = Some "true" → requests wd1 = requests wd ++ [fixedQuery]) →
             (toggle wd ≠ Some "true" → wd1 = wd) →
             requests wd1 = requests wd ++ [fixedQuery] → toggle wd = Some "true").
  { intros wd1 _ Hsame Hr.
    destruct (decide (toggle wd = Some "true")) as [Hx|Hm]; [exact Hx|].
    rewrite (Hsame Hm) in Hr. symmetry in Hr.
    apply app_singleton_neq in Hr. contradiction. }
  destruct (String.eqb_spec (default "" (Vars r !! "id")) "") as [He|Hne].
  - rewrite GetDetails_empty by exact He. simpl.
    split; [reflexivity|]. split; [reflexivity|]. split; [split|].
    + intros [Hn _]. contradiction.
    + intros Hr. symmetry in Hr. apply app_singleton_neq in Hr. contradiction.
    + split; [reflexivity|]. left. reflexivity.
  - rewrite GetDetails_lookup by exact Hne.
    pose proof (getBookDetails_world U wd (default "" (Vars r !! "id")))
      as (Henv & Hup & Hreq & Hsame & Hlog).
    assert (Hw1 : ∀ wd1 : World,
               snd (getBookDetails U (default "" (Vars r !! "id")) wd) = wd1 →
               environ wd1 = environ wd
               ∧ upstream wd1 = upstream wd
               ∧ (default "" (Vars r !! "id") ≠ "" ∧ toggle wd = Some "true" ↔
                  requests wd1 = requests wd ++ [fixedQuery])
               ∧ (default "" (Vars r !! "id") = "" ∨ toggle wd ≠ Some "true" →
                  wd1 = wd)
               ∧ (logged wd1 = logged wd ∨ ∃ msg, logged wd1 = logged wd ++ [msg])).
    { intros wd1 <-. simpl in *.
      split; [exact Henv|]. split; [exact Hup|]. split; [split|].
      - intros [_ Hx]. exact (Hreq Hx).
      - intros Hr. split; [exact Hne|]. exact (Hgrow _ Hreq Hsame Hr).
      - split; [|exact Hlog]. intros [He|Hm]; [contradiction|exact (Hsame Hm)]. }
    destruct (getBookDetails U (default "" (Vars r !! "id")) wd) as [[p|e] wd1];
      simpl; apply Hw1; reflexivity.
Qed.

(** ** The JSON document of a record *)

(** X10. For a non-empty [id] the body of a completed response is one
    JSON document: [null], or an object whose first member is ["id"] with
    the requested identifier as the encoder writes strings (the identifier
    itself when it is valid UTF-8), and which has a ["type"] member,
    ["paperback"] or ["unknown"], and a ["language"] member, ["English"]
    or ["unknown"], in every mode. *)
Theorem X10_body_is_null_or_object_with_id
    (U : string → ExternalBookDetails.t → ExternalBookDetails.t * option string)
    (wd wd' : World) (w w' : ResponseWriter) (r : Request) (id : string) :
  unwritten w →
  Vars r !! "id" = Some id →
  id ≠ "" →
  GetDetails U w r wd = (Ok w', wd') →
  (validUTF8 id = true → toValidUTF8 id = id)
  ∧ (body w' = [Doc JNull]
     ∨ ∃ members,
         body w' = [Doc (JObject (("id", JString (toValidUTF8 id)) :: members))]
         ∧ (∃ t, (t = "paperback" ∨ t = "unknown")
                 ∧ ("type", JString t) ∈ members)
         ∧ (∃ l, (l = "English" ∨ l = "unknown")
                 ∧ ("language", JString l) ∈ members)).
Proof.
  intros Hw Hid Hne Hrun. split; [apply toValidUTF8_valid|].
  assert (Hd : default "" (Vars r !! "id") = id) by (rewrite Hid; reflexivity).
  rewrite GetDetails_lookup in Hrun by (rewrite Hd; exact Hne).
  rewrite Hd in Hrun.
  destruct (getBookDetails U id wd) as [[p|e] wd1] eqn:Hres; [|discriminate].
  injection Hrun as <- _.
  destruct (respond_shape "application/json" 200
              (Doc (marshalBookDetails p)) w Hw) as (_ & _ & Hb).
  unfold Encode. rewrite Hb.
  destruct p as [b|]; [right|left; reflexivity].
  destruct (getBookDetails_record U wd wd1 id b Hres) as (Hbid & Hty & Hlang).
  unfold marshalBookDetails.
  rewrite Hbid, (omitemptyString_nonempty "id" id Hne).
  eexists. split; [reflexivity|]. split.
  - exists (BookDetails.Type_ b). split; [exact Hty|].
    apply elem_of_app. right. apply elem_of_app. right.
    apply elem_of_app. left.
    destruct Hty as [-> | ->]; apply elem_of_cons; left; reflexivity.
  - exists (BookDetails.Language b). split; [exact Hlang|].
    do 5 (apply elem_of_app; right).
    apply elem_of_app. left.
    destruct Hlang as [-> | ->]; apply elem_of_cons; left; reflexivity.
Qed.

Lemma X10_body_is_null_or_object_with_id_witness :
  ∃ w',
    (validUTF8 "42" = true → toValidUTF8 "42" = "42")
    ∧ (body w' = [Doc JNull]
       ∨ ∃ members,
           body w'
           = [Doc (JObject (("id", JString (toValidUTF8 "42")) :: members))]
           ∧ (∃ t, (t = "paperback" ∨ t = "unknown")
                   ∧ ("type", JString t) ∈ members)
           ∧ (∃ l, (l = "English" ∨ l = "unknown")
                   ∧ ("language", JString l) ∈ members)).
Proof.
  eexists.
  apply (X10_body_is_null_or_object_with_id stubUnmarshal
           (externalWorld (Response (ReadAll "magazine-fr")))
           (asked (externalWorld (Response (ReadAll "magazine-fr"))))
           newResponse _ (detailsRequest "42") "42").
  - split; reflexivity.
  - vm_compute. reflexivity.
  - discriminate.
  - vm_compute. reflexivity.
Defined.

(** The members of one field, and among them those of a given name. *)
Lemma filter_omitemptyString (name field value : string) :
  filter (λ m : string * json, m.1 = name) (omitemptyString field value)
  = if decide (field = name) then omitemptyString field value else [].
Proof.
  unfold omitemptyString. destruct (String.eqb value "").
  - destruct (decide (field = name)); reflexivity.
  - rewrite filter_cons, filter_nil. simpl. reflexivity.
Qed.

Lemma filter_omitemptyInt (name field : string) (value : Z) :
  filter (λ m : string * json, m.1 = name) (omitemptyInt field value)
  = if decide (field = name) then omitemptyInt field value else [].
Proof.
  unfold omitemptyInt. destruct (Z.eqb value 0).
  - destruct (decide (field = name)); reflexivity.
  - rewrite filter_cons, filter_nil. simpl. reflexivity.
Qed.

Lemma omitemptyString_inj (name v1 v2 : string) :
  validUTF8 v1 = true → validUTF8 v2 = true →
  omitemptyString name v1 = omitemptyString name v2 → v1 = v2.
Proof.
  intros Hv1 Hv2. unfold omitemptyString.
  rewrite (toValidUTF8_valid v1 Hv1), (toValidUTF8_valid v2 Hv2).
  destruct (String.eqb_spec v1 ""), (String.eqb_spec v2 ""); congruence.
Qed.

Lemma omitemptyInt_inj (name : string) (v1 v2 : Z) :
  omitemptyInt name v1 = omitemptyInt name v2 → v1 = v2.
Proof.
  unfold omitemptyInt.
  destruct (Z.eqb_spec v1 0), (Z.eqb_spec v2 0); congruence.
Qed.

(** The members the encoder emits for a record. *)
Lemma marshalBookDetails_members (b : BookDetails.t) :
  marshalBookDetails (Some b)
  = JObject
      (omitemptyString "id" (BookDetails.ID b)
       ++ omitemptyString "author" (BookDetails.Author b)
       ++ omitemptyString "year" (BookDetails.Year b)
       ++ omitemptyString "type" (BookDetails.Type_ b)
       ++ omitemptyInt "pages" (BookDetails.Pages b)
       ++ omitemptyString "publisher" (BookDetails.Publisher b)
       ++ omitemptyString "language" (BookDetails.Language b)
       ++ omitemptyString "ISBN-10" (BookDetails.ISBN10 b)
       ++ omitemptyString "ISBN-13" (BookDetails.ISBN13 b)).
Proof. reflexivity. Qed.

Ltac members_named name H :=
  let Hf := fresh "Hf" in
  pose proof (f_equal (filter (λ m : string * json, m.1 = name)) H) as Hf;
  rewrite !filter_app, !filter_omitemptyString, !filter_omitemptyInt in Hf;
  simpl in Hf; rewrite ?app_nil_r in Hf.

(** X11. Among values whose strings are valid UTF-8 the JSON document
    determines the value encoded: two such pointers with the same document
    are both nil or point to equal records, so the omission of empty
    fields loses nothing. *)
Theorem X11_document_determines_valid_record (p1 p2 : option BookDetails.t) :
  from_option validBookDetails true p1 = true →
  from_option validBookDetails true p2 = true →
  marshalBookDetails p1 = marshalBookDetails p2 →
  p1 = p2.
Proof.
  intros Hv1 Hv2 Hdoc.
  destruct p1 as [b1|], p2 as [b2|]; try discriminate Hdoc; [|reflexivity].
  simpl in Hv1, Hv2. unfold validBookDetails in Hv1, Hv2.
  repeat (apply andb_prop in Hv1; destruct Hv1 as [Hv1 ?]).
  repeat (apply andb_prop in Hv2; destruct Hv2 as [Hv2 ?]).
  rewrite !marshalBookDetails_members in Hdoc. injection Hdoc as Hmem.
  members_named "id" Hmem. apply omitemptyString_inj in Hf; [|assumption..].
  members_named "author" Hmem. apply omitemptyString_inj in Hf0; [|assumption..].
  members_named "year" Hmem. apply omitemptyString_inj in Hf1; [|assumption..].
  members_named "type" Hmem. apply omitemptyString_inj in Hf2; [|assumption..].
  members_named "pages" Hmem. apply omitemptyInt_inj in Hf3.
  members_named "publisher" Hmem. apply omitemptyString_inj in Hf4; [|assumption..].
  members_named "language" Hmem. apply omitemptyString_inj in Hf5; [|assumption..].
  members_named "ISBN-10" Hmem. apply omitemptyString_inj in Hf6; [|assumption..].
  members_named "ISBN-13" Hmem. apply omitemptyString_inj in Hf7; [|assumption..].
  destruct b1, b2. simpl in *. congruence.
Qed.

Lemma X11_document_determines_valid_record_witness :
  Some (mockBookDetails "42")
  = Some (BookDetails.mk "42" "William Shakespeare" "1595" "paperback" 200
            "PublisherX" "English" "1234567890" "123-1234567890").
Proof.
  apply (X11_document_determines_valid_record (Some (mockBookDetails "42"))
           (Some (BookDetails.mk "42" "William Shakespeare" "1595" "paperback"
                    200 "PublisherX" "English" "1234567890" "123-1234567890"))).
  - vm_compute. reflexivity.
  - vm_compute. reflexivity.
  - reflexivity.
Defined.

Lemma omitemptyString_members (name value : string) :
  Forall (λ m : string * json, m.2 ≠ JString "" ∧ m.2 ≠ JNumber 0)
    (omitemptyString name value)
  ∧ (omitemptyString name value).*1 `sublist_of` [name].
Proof.
  unfold omitemptyString. destruct (String.eqb_spec value "") as [He|Hne]; simpl.
  - split; [constructor|apply sublist_nil_l].
  - split; [|reflexivity].
    constructor; [|constructor]. simpl. split; [|congruence].
    intros [= Hempty]. exact (toValidUTF8_nonempty value Hne Hempty).
Qed.

Lemma omitemptyInt_members (name : string) (value : Z) :
  Forall (λ m : string * json, m.2 ≠ JString "" ∧ m.2 ≠ JNumber 0)
    (omitemptyInt name value)
  ∧ (omitemptyInt name value).*1 `sublist_of` [name].
Proof.
  unfold omitemptyInt. destruct (Z.eqb_spec value 0) as [He|Hne]; simpl.
  - split; [constructor|apply sublist_nil_l].
  - split; [|reflexivity].
    constructor; [|constructor]. simpl. split; congruence.
Qed.

(** X12. The object encoded for a record never carries an empty string
    or a zero number, and its member names follow the order of the struct
    fields, each at most once. *)
Theorem X12_members_nonempty_in_field_order
    (b : BookDetails.t) (members : list (string * json)) :
  marshalBookDetails (Some b) = JObject members →
  Forall (λ m : string * json, m.2 ≠ JString "" ∧ m.2 ≠ JNumber 0) members
  ∧ members.*1 `sublist_of`
      ["id"; "author"; "year"; "type"; "pages"; "publisher"; "language";
       "ISBN-10"; "ISBN-13"]
  ∧ NoDup members.*1.
Proof.
  rewrite marshalBookDetails_members. intros [= <-].
  assert (Hsub :
    (omitemptyString "id" (BookDetails.ID b)
     ++ omitemptyString "author" (BookDetails.Author b)
     ++ omitemptyString "year" (BookDetails.Year b)
     ++ omitemptyString "type" (BookDetails.Type_ b)
     ++ omitemptyInt "pages" (BookDetails.Pages b)
     ++ omitemptyString "publisher" (BookDetails.Publisher b)
     ++ omitemptyString "language" (BookDetails.Language b)
     ++ omitemptyString "ISBN-10" (BookDetails.ISBN10 b)
     ++ omitemptyString "ISBN-13" (BookDetails.ISBN13 b)).*1
    `sublist_of`
      ["id"; "author"; "year"; "type"; "pages"; "publisher"; "language";
       "ISBN-10"; "ISBN-13"]).
  { rewrite !fmap_app.
    change ["id"; "author"; "year"; "type"; "pages"; "publisher"; "language";
            "ISBN-10"; "ISBN-13"]
      with (["id"] ++ ["author"] ++ ["year"] ++ ["type"] ++ ["pages"]
            ++ ["publisher"] ++ ["language"] ++ ["ISBN-10"] ++ ["ISBN-13"]).
    repeat (apply sublist_app;
            [first [apply omitemptyString_members|apply omitemptyInt_members]|]).
    apply omitemptyString_members. }
  split; [|split].
  - rewrite !Forall_app.
    repeat split;
      first [apply omitemptyString_members|apply omitemptyInt_members].
  - exact Hsub.
  - eapply sublist_NoDup; [|exact Hsub].
    apply (bool_decide_unpack _). vm_compute. reflexivity.
Qed.

Lemma X12_members_nonempty_in_field_order_witness :
  let members :=
    [("id", JString "42"); ("type", JString "unknown"); ("pages", JNumber 7);
     ("language", JString "unknown")] in
  Forall (λ m : string * json, m.2 ≠ JString "" ∧ m.2 ≠ JNumber 0) members
  ∧ members.*1 `sublist_of`
      ["id"; "author"; "year"; "type"; "pages"; "publisher"; "language";
       "ISBN-10"; "ISBN-13"]
  ∧ NoDup members.*1.
Proof.
  apply (X12_members_nonempty_in_field_order
           (BookDetails.mk "42" "" "" "unknown" 7 "" "unknown" "" "")).
  reflexivity.
Defined.

(** ** The helpers of the translation *)

Lemma rangeIdentifiers_Some (kind : string) (ids : list IndustryIdentifier.t)
    (s : string) :
  rangeIdentifiers kind ids = Some s →
  ∃ e, e ∈ ids ∧ IndustryIdentifier.Type_ e = kind
       ∧ IndustryIdentifier.Identifier e = s.
Proof.
  induction ids as [|p ids IH]; simpl.
  - discriminate.
  - destruct (String.eqb_spec (IndustryIdentifier.Type_ p) kind) as [He|Hne].
    + intros [= <-]. exists p. split; [apply elem_of_cons; left; reflexivity|].
      split; [exact He|reflexivity].
    + intros Hs. destruct (IH Hs) as (e & Hin & Hk & Hi).
      exists e. split; [apply elem_of_cons; right; exact Hin|]. split; assumption.
Qed.

Lemma rangeIdentifiers_None (kind : string) (ids : list IndustryIdentifier.t) :
  rangeIdentifiers kind ids = None →
  ∀ e, e ∈ ids → IndustryIdentifier.Type_ e ≠ kind.
Proof.
  induction ids as [|p ids IH]; simpl.
  - intros _ e Hin. apply elem_of_nil in Hin. contradiction.
  - destruct (String.eqb_spec (IndustryIdentifier.Type_ p) kind) as [He|Hne].
    + discriminate.
    + intros Hn e Hin. apply elem_of_cons in Hin.
      destruct Hin as [->|Hin]; [exact Hne|exact (IH Hn e Hin)].
Qed.

(** X13. A string returned by [getISBN] is the identifier of an entry of
    the kind asked for among the first item's industry identifiers, empty
    if that entry's identifier is empty, or else it is ["1234567890"] and
    then no entry has that kind. *)
Theorem X13_getISBN_result_origin
    (kind : string) (ext : ExternalBookDetails.t) (s : string) :
  getISBN kind ext = Ok s →
  ∃ item rest,
    ExternalBookDetails.Items ext = item :: rest
    ∧ ((∃ e, e ∈ VolumeInfo.IndustryIdentifiers (Item.VolumeInfo item)
             ∧ IndustryIdentifier.Type_ e = kind
             ∧ IndustryIdentifier.Identifier e = s)
       ∨ (s = "1234567890"
          ∧ ∀ e, e ∈ VolumeInfo.IndustryIdentifiers (Item.VolumeInfo item) →
                 IndustryIdentifier.Type_ e ≠ kind)).
Proof.
  unfold getISBN.
  destruct (ExternalBookDetails.Items ext) as [|item rest]; simpl.
  - discriminate.
  - destruct (rangeIdentifiers kind
                (VolumeInfo.IndustryIdentifiers (Item.VolumeInfo item)))
      as [found|] eqn:Hr; simpl; intros [= <-]; exists item, rest;
      (split; [reflexivity|]).
    + left. exact (rangeIdentifiers_Some _ _ _ Hr).
    + right. split; [reflexivity|]. exact (rangeIdentifiers_None _ _ Hr).
Qed.

Lemma X13_getISBN_result_origin_witness :
  ∃ item rest,
    ExternalBookDetails.Items
      (sampleAnswer
         (sampleVolume ["A"] "BOOK" "en"
            [IndustryIdentifier.mk "ISBN_13" "9"; IndustryIdentifier.mk "ISBN_10" ""]))
    = item :: rest
    ∧ ((∃ e, e ∈ VolumeInfo.IndustryIdentifiers (Item.VolumeInfo item)
             ∧ IndustryIdentifier.Type_ e = "ISBN_10"
             ∧ IndustryIdentifier.Identifier e = "")
       ∨ ("" = "1234567890"
          ∧ ∀ e, e ∈ VolumeInfo.IndustryIdentifiers (Item.VolumeInfo item) →
                 IndustryIdentifier.Type_ e ≠ "ISBN_10")).
Proof.
  apply (X13_getISBN_result_origin "ISBN_10"
           (sampleAnswer
              (sampleVolume ["A"] "BOOK" "en"
                 [IndustryIdentifier.mk "ISBN_13" "9";
                  IndustryIdentifier.mk "ISBN_10" ""])) "").
  reflexivity.
Defined.

(** X14. Each of [getPrintType], [getLanguage] and [getISBN] indexes the
    first item on its own: it panics, with index 0 out of range, exactly
    on an answer without items, and returns a string on every other. *)
Theorem X14_helpers_panic_without_items
    (kind : string) (ext : ExternalBookDetails.t) :
  (getPrintType ext = Panic (IndexOutOfRange 0 0)
   ↔ ExternalBookDetails.Items ext = [])
  ∧ (getLanguage ext = Panic (IndexOutOfRange 0 0)
     ↔ ExternalBookDetails.Items ext = [])
  ∧ (getISBN kind ext = Panic (IndexOutOfRange 0 0)
     ↔ ExternalBookDetails.Items ext = [])
  ∧ (ExternalBookDetails.Items ext ≠ [] →
     ∃ t l s, getPrintType ext = Ok t ∧ getLanguage ext = Ok l
              ∧ getISBN kind ext = Ok s).
Proof.
  unfold getPrintType, getLanguage, getISBN.
  destruct (ExternalBookDetails.Items ext) as [|item rest]; simpl.
  - split; [split; reflexivity|]. split; [split; reflexivity|].
    split; [split; reflexivity|]. intros Hn. contradiction.
  - assert (Hno : ∀ r : result string,
               (∃ v, r = Ok v) →
               r = Panic (IndexOutOfRange 0 0) ↔ item :: rest = []).
    { intros r [v ->]. split; discriminate. }
    split; [apply Hno|split; [apply Hno|split; [apply Hno|]]].
    + destruct (String.eqb _ "BOOK"); eexists; reflexivity.
    + destruct (String.eqb _ "en"); eexists; reflexivity.
    + destruct (rangeIdentifiers _ _); eexists; reflexivity.
    + intros _.
      destruct (String.eqb _ "BOOK"), (String.eqb _ "en"),
        (rangeIdentifiers _ _); do 3 eexists; repeat split.
Qed.

(** X15. The details handler fails to answer in exactly one situation: a
    non-empty [id], external mode, a body that could be read, and a
    decoded answer that has no items or whose first item has no authors;
    the panic of the resolver is not recovered. *)
Theorem X15_handler_panics_iff
    (U : string → ExternalBookDetails.t → ExternalBookDetails.t * option string)
    (wd : World) (w : ResponseWriter) (r : Request) :
  ((∃ e, fst (GetDetails U w r wd) = Panic e)
   ↔ default "" (Vars r !! "id") ≠ ""
     ∧ toggle wd = Some "true"
     ∧ ∃ data,
         upstream wd fixedQuery = Response (ReadAll data)
         ∧ (ExternalBookDetails.Items (fst (U data ExternalBookDetails.zero)) = []
            ∨ ∃ item rest,
                ExternalBookDetails.Items (fst (U data ExternalBookDetails.zero))
                = item :: rest
                ∧ VolumeInfo.Authors (Item.VolumeInfo item) = [])).
Proof.
  - destruct (String.eqb_spec (default "" (Vars r !! "id")) "") as [He|Hne].
    + rewrite GetDetails_empty by exact He. simpl. split.
      * intros [e [=]].
      * intros [Hn _]. contradiction.
    + rewrite GetDetails_lookup by exact Hne.
      pose proof (getBookDetails_panics_iff U wd (default "" (Vars r !! "id")))
        as [Hiff _].
      destruct (getBookDetails U (default "" (Vars r !! "id")) wd)
        as [[p|e0] wd1]; simpl in *.
      * split.
        -- intros [e [=]].
        -- intros [_ Hbad]. apply Hiff in Hbad. destruct Hbad as [e [=]].
      * split.
        -- intros _. split; [exact Hne|]. apply Hiff. eauto.
        -- intros _. eauto.
Qed.
